(** * Climate logger (Raspberry Pi Sense Hat): the correction pipeline

    A shallow embedding of [climatelogger/climate_logger.ipynb]: Buck's
    saturation vapor pressure, the three ambient corrections, the
    [Sensor] class that runs one measurement cycle, the [ClimateDB] class
    that stores the records, and the main loop.

    Numbers.  The notebook computes with Python's [float].  Two models of
    it are used.

    - Exact arithmetic.  At top level a [float] is a real number of [R]
      and [math.exp] is the real exponential: every operation is the exact
      one and the comparisons of the [assert] statements are the decidable
      comparisons of [R].  The statements quantified over all inputs are
      proved here.

    - Binary64.  In module [Binary64] a [float] is a binary64 number with
      the IEEE 754 operations, as in Python.  [math.exp] is the function
      of the platform's C library; the C standard fixes it at zero only
      (exp of plus or minus 0 is 1), so the module determines the outcome
      of a computation when the exponential is taken at zero or not
      reached, and leaves it undetermined otherwise.  The module is used
      to evaluate the functions at concrete inputs.

    Exceptions.  A failing [assert] raises [AssertionError] with the
    message of the source (assertions are taken to be enabled, python
    without -O); a float division by zero raises [ZeroDivisionError];
    reading an attribute that was never assigned raises [AttributeError].
    A method of [Sensor] is a function from the object's state to the
    state it leaves behind and either its result or the exception it
    raised: what was assigned before the exception stays assigned, as in
    Python.

    The outside world.  The Sense Hat driver is what it answers: the
    three floats it returns in a cycle, and the formatted time of the
    clock.  A sqlite file is the list of rows of its table
    [ClimateRecord], in insertion order; [time.sleep] is the number of
    seconds asked for.  The [while True] loop is run over the finite list
    of cycles the world provides. *)

From Stdlib Require Import Reals Lra Psatz String List Bool Floats.
Import ListNotations.
Open Scope R_scope.

(* A decimal constant that is not a binary64 number stands for the nearest
   one, in Python and in [float_scope] alike. *)
Set Warnings "-inexact-float".

(** ** Exceptions *)

(** The [assert] statements of the notebook, one constructor each. *)
Inductive assertion : Type :=
| BuckNegativePressure
| BuckTemperatureBelow
| BuckTemperatureAbove
| BuckNegativeOutput
| HumidityBelow
| HumidityAbove
| TemperatureBelow
| TemperatureAbove
| PressureBelow
| PressureAbove.

(** The text each assertion carries. *)
Definition message (a : assertion) : string :=
  match a with
  | BuckNegativePressure => "buck_vapor_pressure: negative input air pressure"
  | BuckTemperatureBelow => "buck_vapor_pressure: temperature below validity range"
  | BuckTemperatureAbove => "buck_vapor_pressure: temperature above validity range"
  | BuckNegativeOutput => "buck_vapor_pressure: negative output vapor pressure"
  | HumidityBelow => "Sensor.update: humidity < 0% received from sensor."
  | HumidityAbove => "Sensor.update: humidity > 100% received from sensor."
  | TemperatureBelow => "Sensor.update: temperature < 0 °C received from sensor."
  | TemperatureAbove => "Sensor.update: temperature > 65 °C received from sensor."
  | PressureBelow => "Sensor.update: pressure < 260 hPa received from sensor."
  | PressureAbove => "Sensor.update: pressure > 1260 hPa received from sensor."
  end.

Inductive exn : Type :=
| AssertionError (a : assertion)
| ZeroDivisionError
| AttributeError (name : string).

(** The error kinds of section 7 of the specification, and the kind each
    exception of the code falls under.  The code raises nothing that the
    specification would call a StorageError in the functions modelled
    here, and the specification has no kind for a division by zero. *)
Inductive error_kind : Type :=
| InvalidInput
| SensorOutOfRange
| InternalError
| StorageError
| NotReady.

Definition kind_of (e : exn) : option error_kind :=
  match e with
  | AssertionError BuckNegativePressure
  | AssertionError BuckTemperatureBelow
  | AssertionError BuckTemperatureAbove => Some InvalidInput
  | AssertionError BuckNegativeOutput => Some InternalError
  | AssertionError _ => Some SensorOutOfRange
  | ZeroDivisionError => None
  | AttributeError _ => Some NotReady
  end.

(** ** The error monad of the pure functions *)

Definition result (A : Type) : Type := (exn + A)%type.

Definition ret {A : Type} (x : A) : result A := inr x.

Definition raise {A : Type} (e : exn) : result A := inl e.

Definition bind {A B : Type} (c : result A) (k : A -> result B) : result B :=
  match c with
  | inl e => inl e
  | inr x => k x
  end.

Declare Scope py_scope.
Delimit Scope py_scope with py.
Notation "x <- c ;; k" := (bind c (fun x => k))
  (at level 61, c at next level, right associativity) : py_scope.
Notation "c ;; k" := (bind c (fun _ => k))
  (at level 61, right associativity) : py_scope.
Open Scope py_scope.

(** [assert cond, msg]: the condition comes with its decision. *)
Definition assert {P : Prop} (cond : {P} + {~ P}) (a : assertion) : result unit :=
  if cond then ret tt else raise (AssertionError a).

(** Float division: Python raises on a zero divisor. *)
Definition truediv (x y : R) : result R :=
  if Req_dec_T y 0 then raise ZeroDivisionError else ret (x / y).

(** ** Physics *)

Definition buck_constants : list R := [1.0007; 3.46e-6; 6.1121; 17.502; 240.97].

(** [buck_constants[i]]; the notebook only uses the indices 0 to 4. *)
Definition buck_constant (i : nat) : R := nth i buck_constants 0.

Definition buck_vapor_pressure (air_pressure temperature : R) : result R :=
  assert (Rgt_dec air_pressure 0) BuckNegativePressure ;;
  assert (Rge_dec temperature (-20)) BuckTemperatureBelow ;;
  assert (Rle_dec temperature 50) BuckTemperatureAbove ;;
  let enhancement_factor := buck_constant 0 + buck_constant 1 * air_pressure in
  temperature_exponent <-
    truediv (buck_constant 3 * temperature) (buck_constant 4 + temperature) ;;
  let vapor_pressure :=
    enhancement_factor * buck_constant 2 * exp temperature_exponent in
  assert (Rgt_dec vapor_pressure 0) BuckNegativeOutput ;;
  ret vapor_pressure.

Definition a_fit : R := 0.8542.
Definition b_fit : R := -9.675.

Definition ambient_temperature (measured_temperature : R) : R :=
  a_fit * measured_temperature + b_fit.

Definition ambient_pressure (measured_pressure : R) : R := measured_pressure.

Definition ambient_humidity
  (measured_humidity measured_temperature measured_pressure
   ambient_temperature ambient_pressure : R) : result R :=
  inside_vapor_pressure <-
    buck_vapor_pressure measured_pressure measured_temperature ;;
  ambient_vapor_pressure <-
    buck_vapor_pressure ambient_pressure ambient_temperature ;;
  truediv (measured_humidity * inside_vapor_pressure) ambient_vapor_pressure.

(** ** The Sensor class *)

(** What the outside world answers during one call of [update]: the three
    reads of the Sense Hat driver and the clock, already formatted by
    [strftime] with the format it is given. *)
Record cycle : Type := {
  get_humidity : R;
  get_temperature_from_humidity : R;
  get_pressure : R;
  utcnow_strftime : string -> string
}.

Module Sensor.

(** The module-level functions, named here before the attributes of the
    same names hide them inside the class. *)
Local Abbreviation correct_temperature := ambient_temperature (only parsing).
Local Abbreviation correct_pressure := ambient_pressure (only parsing).
Local Abbreviation correct_humidity := ambient_humidity (only parsing).

(** The instance attributes.  [timestamp_fmt] and [measurement_interval]
    are assigned by [__init__]; the others exist only once a method has
    assigned them, hence the options. *)
Record state : Type := {
  timestamp_fmt : string;
  measurement_interval : R;
  measured_humidity : option R;
  measured_temperature : option R;
  measured_pressure : option R;
  timestamp : option string;
  ambient_temperature : option R;
  ambient_pressure : option R;
  ambient_humidity : option R
}.

(** A method: state in, state out, and a result or an exception. *)
Definition method (A : Type) : Type := state -> state * result A.

Definition mret {A : Type} (x : A) : method A := fun s => (s, inr x).

Definition mbind {A B : Type} (c : method A) (k : A -> method B) : method B :=
  fun s =>
    match c s with
    | (s', inl e) => (s', inl e)
    | (s', inr x) => k x s'
    end.

(** Reading an attribute that [__init__] assigned. *)
Definition gets {A : Type} (field : state -> A) : method A :=
  fun s => (s, inr (field s)).

(** A pure computation run inside a method. *)
Definition lift {A : Type} (c : result A) : method A := fun s => (s, c).

Declare Scope method_scope.
Delimit Scope method_scope with method.
Notation "x <- c ;; k" := (mbind c (fun x => k))
  (at level 61, c at next level, right associativity) : method_scope.
Notation "c ;; k" := (mbind c (fun _ => k))
  (at level 61, right associativity) : method_scope.

(** [self.name]: fails when the attribute was never assigned. *)
Definition getattr {A : Type} (name : string) (field : state -> option A)
  : method A :=
  fun s =>
    match field s with
    | Some v => (s, inr v)
    | None => (s, inl (AttributeError name))
    end.

(** [self.name = v], one setter per attribute that the methods assign. *)
Definition set_measured_humidity (v : R) : method unit := fun s =>
  ({| timestamp_fmt := timestamp_fmt s;
      measurement_interval := measurement_interval s;
      measured_humidity := Some v;
      measured_temperature := measured_temperature s;
      measured_pressure := measured_pressure s;
      timestamp := timestamp s;
      ambient_temperature := ambient_temperature s;
      ambient_pressure := ambient_pressure s;
      ambient_humidity := ambient_humidity s |}, inr tt).

Definition set_measured_temperature (v : R) : method unit := fun s =>
  ({| timestamp_fmt := timestamp_fmt s;
      measurement_interval := measurement_interval s;
      measured_humidity := measured_humidity s;
      measured_temperature := Some v;
      measured_pressure := measured_pressure s;
      timestamp := timestamp s;
      ambient_temperature := ambient_temperature s;
      ambient_pressure := ambient_pressure s;
      ambient_humidity := ambient_humidity s |}, inr tt).

Definition set_measured_pressure (v : R) : method unit := fun s =>
  ({| timestamp_fmt := timestamp_fmt s;
      measurement_interval := measurement_interval s;
      measured_humidity := measured_humidity s;
      measured_temperature := measured_temperature s;
      measured_pressure := Some v;
      timestamp := timestamp s;
      ambient_temperature := ambient_temperature s;
      ambient_pressure := ambient_pressure s;
      ambient_humidity := ambient_humidity s |}, inr tt).

Definition set_timestamp (v : string) : method unit := fun s =>
  ({| timestamp_fmt := timestamp_fmt s;
      measurement_interval := measurement_interval s;
      measured_humidity := measured_humidity s;
      measured_temperature := measured_temperature s;
      measured_pressure := measured_pressure s;
      timestamp := Some v;
      ambient_temperature := ambient_temperature s;
      ambient_pressure := ambient_pressure s;
      ambient_humidity := ambient_humidity s |}, inr tt).

Definition set_ambient_temperature (v : R) : method unit := fun s =>
  ({| timestamp_fmt := timestamp_fmt s;
      measurement_interval := measurement_interval s;
      measured_humidity := measured_humidity s;
      measured_temperature := measured_temperature s;
      measured_pressure := measured_pressure s;
      timestamp := timestamp s;
      ambient_temperature := Some v;
      ambient_pressure := ambient_pressure s;
      ambient_humidity := ambient_humidity s |}, inr tt).

Definition set_ambient_pressure (v : R) : method unit := fun s =>
  ({| timestamp_fmt := timestamp_fmt s;
      measurement_interval := measurement_interval s;
      measured_humidity := measured_humidity s;
      measured_temperature := measured_temperature s;
      measured_pressure := measured_pressure s;
      timestamp := timestamp s;
      ambient_temperature := ambient_temperature s;
      ambient_pressure := Some v;
      ambient_humidity := ambient_humidity s |}, inr tt).

Definition set_ambient_humidity (v : R) : method unit := fun s =>
  ({| timestamp_fmt := timestamp_fmt s;
      measurement_interval := measurement_interval s;
      measured_humidity := measured_humidity s;
      measured_temperature := measured_temperature s;
      measured_pressure := measured_pressure s;
      timestamp := timestamp s;
      ambient_temperature := ambient_temperature s;
      ambient_pressure := ambient_pressure s;
      ambient_humidity := Some v |}, inr tt).

(** [Sensor()]: the object [__init__] leaves behind.  Its three test
    reads are bound to a local and dropped. *)
Definition init : state :=
  {| timestamp_fmt := "%Y-%m-%d %H:%M:%S";
     measurement_interval := 30;
     measured_humidity := None;
     measured_temperature := None;
     measured_pressure := None;
     timestamp := None;
     ambient_temperature := None;
     ambient_pressure := None;
     ambient_humidity := None |}.

Open Scope method_scope.

Definition compute_ambient_values : method unit :=
  mt <- getattr "measured_temperature" measured_temperature ;;
  set_ambient_temperature (correct_temperature mt) ;;
  mp <- getattr "measured_pressure" measured_pressure ;;
  set_ambient_pressure (correct_pressure mp) ;;
  mh <- getattr "measured_humidity" measured_humidity ;;
  mt <- getattr "measured_temperature" measured_temperature ;;
  mp <- getattr "measured_pressure" measured_pressure ;;
  ta <- getattr "ambient_temperature" ambient_temperature ;;
  pa <- getattr "ambient_pressure" ambient_pressure ;;
  ah <- lift (correct_humidity mh mt mp ta pa) ;;
  set_ambient_humidity ah.

Definition update (w : cycle) : method unit :=
  set_measured_humidity (get_humidity w) ;;
  h <- getattr "measured_humidity" measured_humidity ;;
  lift (assert (Rge_dec h 0) HumidityBelow) ;;
  h <- getattr "measured_humidity" measured_humidity ;;
  lift (assert (Rle_dec h 100) HumidityAbove) ;;
  set_measured_temperature (get_temperature_from_humidity w) ;;
  t <- getattr "measured_temperature" measured_temperature ;;
  lift (assert (Rge_dec t 0) TemperatureBelow) ;;
  t <- getattr "measured_temperature" measured_temperature ;;
  lift (assert (Rle_dec t 65) TemperatureAbove) ;;
  set_measured_pressure (get_pressure w) ;;
  p <- getattr "measured_pressure" measured_pressure ;;
  lift (assert (Rge_dec p 260) PressureBelow) ;;
  p <- getattr "measured_pressure" measured_pressure ;;
  lift (assert (Rle_dec p 1260) PressureAbove) ;;
  fmt <- gets timestamp_fmt ;;
  set_timestamp (utcnow_strftime w fmt) ;;
  compute_ambient_values.

(** [time.sleep(self.measurement_interval)]: the result is the number of
    seconds the method asks to sleep; the object is left as it is. *)
Definition wait : method R := gets measurement_interval.

Close Scope method_scope.

End Sensor.

(** The attribute reads of the main loop, [ClimateMeas.timestamp] and the
    three ambient values, and the four of them in the order the call of
    [CliDB.write] evaluates its arguments. *)
Module Main.
Import Sensor.
Open Scope method_scope.

Definition read_timestamp : method string :=
  getattr "timestamp" timestamp.

Definition read_ambient_humidity : method R :=
  getattr "ambient_humidity" ambient_humidity.

Definition read_ambient_temperature : method R :=
  getattr "ambient_temperature" ambient_temperature.

Definition read_ambient_pressure : method R :=
  getattr "ambient_pressure" ambient_pressure.

Definition corrected_record : method (string * R * R * R) :=
  ts <- read_timestamp ;;
  ah <- read_ambient_humidity ;;
  ta <- read_ambient_temperature ;;
  pa <- read_ambient_pressure ;;
  mret (ts, ah, ta, pa).

End Main.

(** ** The pure functions on binary64 numbers *)

Module Binary64.

#[local] Open Scope float_scope.

(** What a computation does: [Some (inr v)] returns [v], [Some (inl e)]
    raises [e], [None] when the outcome depends on the C library. *)
Definition outcome (A : Type) : Type := option (result A).

Definition ret {A : Type} (x : A) : outcome A := Some (inr x).

Definition raise {A : Type} (e : exn) : outcome A := Some (inl e).

Definition bind {A B : Type} (c : outcome A) (k : A -> outcome B) : outcome B :=
  match c with
  | Some (inr x) => k x
  | Some (inl e) => Some (inl e)
  | None => None
  end.

Declare Scope outcome_scope.
Notation "x <- c ;; k" := (bind c (fun x => k))
  (at level 61, c at next level, right associativity) : outcome_scope.
Notation "c ;; k" := (bind c (fun _ => k))
  (at level 61, right associativity) : outcome_scope.
#[local] Open Scope outcome_scope.

Definition assert (cond : bool) (a : assertion) : outcome unit :=
  if cond then ret tt else raise (AssertionError a).

Definition truediv (x y : float) : outcome float :=
  if y =? 0 then raise ZeroDivisionError else ret (x / y).

(** [math.exp]: 1 at plus and minus zero, not determined elsewhere.  A
    computation that takes the exponential of another number has no
    outcome in this module, so nothing is stated below about the value a
    binary64 computation returns except where the exponent is zero. *)
Definition exp (x : float) : outcome float :=
  if x =? 0 then ret 1 else None.

Definition buck_constants : list float :=
  [1.0007; 3.46e-6; 6.1121; 17.502; 240.97].

Definition buck_constant (i : nat) : float := nth i buck_constants 0.

Definition buck_vapor_pressure (air_pressure temperature : float)
  : outcome float :=
  assert (0 <? air_pressure) BuckNegativePressure ;;
  assert (-20 <=? temperature) BuckTemperatureBelow ;;
  assert (temperature <=? 50) BuckTemperatureAbove ;;
  let enhancement_factor := buck_constant 0 + buck_constant 1 * air_pressure in
  temperature_exponent <-
    truediv (buck_constant 3 * temperature) (buck_constant 4 + temperature) ;;
  e <- exp temperature_exponent ;;
  let vapor_pressure := enhancement_factor * buck_constant 2 * e in
  assert (0 <? vapor_pressure) BuckNegativeOutput ;;
  ret vapor_pressure.

Definition a_fit : float := 0.8542.
Definition b_fit : float := -9.675.

Definition ambient_temperature (measured_temperature : float) : float :=
  a_fit * measured_temperature + b_fit.

Definition ambient_pressure (measured_pressure : float) : float :=
  measured_pressure.

Definition ambient_humidity
  (measured_humidity measured_temperature measured_pressure
   ambient_temperature ambient_pressure : float) : outcome float :=
  inside_vapor_pressure <-
    buck_vapor_pressure measured_pressure measured_temperature ;;
  ambient_vapor_pressure <-
    buck_vapor_pressure ambient_pressure ambient_temperature ;;
  truediv (measured_humidity * inside_vapor_pressure) ambient_vapor_pressure.

(** The smallest positive binary64 number, 2^-1074. *)
Definition tiny : float := 0x1p-1074.

End Binary64.

(** The object after a series of [update] calls, each with what the world
    answered, and the outcome of every call.  The caller goes on after an
    exception, as the scheduler of the specification does; the [while]
    loop of the notebook stops at the first one. *)
Fixpoint run (s : Sensor.state) (ws : list cycle)
  : Sensor.state * list (result unit) :=
  match ws with
  | [] => (s, [])
  | w :: ws' =>
      let (s1, r) := Sensor.update w s in
      let (s2, rs) := run s1 ws' in
      (s2, r :: rs)
  end.

Definition failed {A : Type} (r : result A) : Prop :=
  match r with
  | inl _ => True
  | inr _ => False
  end.

(** A call that stopped at one of the range checks of [update]. *)
Definition rejected {A : Type} (r : result A) : Prop :=
  match r with
  | inl e => kind_of e = Some SensorOutOfRange
  | inr _ => False
  end.

(** ** The formula of the specification *)

(** Buck's equation as section 4.1 of the specification writes it. *)
Definition buck_formula (air_pressure temperature : R) : R :=
  (1.0007 + 3.46e-6 * air_pressure) * 6.1121
  * exp (17.502 * temperature / (240.97 + temperature)).

(** The sensor bounds of [update]. *)
Definition in_sensor_range (w : cycle) : Prop :=
  0 <= get_humidity w <= 100
  /\ 0 <= get_temperature_from_humidity w <= 65
  /\ 260 <= get_pressure w <= 1260.

(** Closeness up to a relative tolerance, for the "approximately" of the
    specification's numeric examples. *)
Definition approx (tol x y : R) : Prop := Rabs (x - y) <= tol * Rabs y.

(** ** States and inputs that the statements below refer to *)

(** The object as the successful range checks of [update] leave it, with
    the two ambient values that [compute_ambient_values] assigns before it
    calls [ambient_humidity]. *)
Definition before_humidity (w : cycle) (s : Sensor.state) : Sensor.state :=
  {| Sensor.timestamp_fmt := Sensor.timestamp_fmt s;
     Sensor.measurement_interval := Sensor.measurement_interval s;
     Sensor.measured_humidity := Some (get_humidity w);
     Sensor.measured_temperature := Some (get_temperature_from_humidity w);
     Sensor.measured_pressure := Some (get_pressure w);
     Sensor.timestamp := Some (utcnow_strftime w (Sensor.timestamp_fmt s));
     Sensor.ambient_temperature :=
       Some (ambient_temperature (get_temperature_from_humidity w));
     Sensor.ambient_pressure := Some (ambient_pressure (get_pressure w));
     Sensor.ambient_humidity := Sensor.ambient_humidity s |}.

Definition corrected (w : cycle) (s : Sensor.state) (ah : R) : Sensor.state :=
  {| Sensor.timestamp_fmt := Sensor.timestamp_fmt s;
     Sensor.measurement_interval := Sensor.measurement_interval s;
     Sensor.measured_humidity := Some (get_humidity w);
     Sensor.measured_temperature := Some (get_temperature_from_humidity w);
     Sensor.measured_pressure := Some (get_pressure w);
     Sensor.timestamp := Some (utcnow_strftime w (Sensor.timestamp_fmt s));
     Sensor.ambient_temperature :=
       Some (ambient_temperature (get_temperature_from_humidity w));
     Sensor.ambient_pressure := Some (ambient_pressure (get_pressure w));
     Sensor.ambient_humidity := Some ah |}.

(** The humidity correction that a cycle with in-range readings calls. *)
Definition cycle_humidity (w : cycle) : result R :=
  ambient_humidity (get_humidity w) (get_temperature_from_humidity w)
    (get_pressure w)
    (ambient_temperature (get_temperature_from_humidity w))
    (ambient_pressure (get_pressure w)).

(** The four attributes that make up the corrected record. *)
Definition record_attributes (s : Sensor.state)
  : option string * option R * option R * option R :=
  (Sensor.timestamp s, Sensor.ambient_humidity s,
   Sensor.ambient_temperature s, Sensor.ambient_pressure s).

(** The assertions of [Sensor.update], as opposed to those of
    [buck_vapor_pressure]. *)
Definition sensor_assertion (a : assertion) : bool :=
  match a with
  | HumidityBelow | HumidityAbove
  | TemperatureBelow | TemperatureAbove
  | PressureBelow | PressureAbove => true
  | _ => false
  end.

(** Two cycles used as concrete inputs: the end-to-end example of the
    specification, and one whose temperature is inside the sensor range
    but above the validity range of Buck's formula. *)
Definition mild : cycle :=
  {| get_humidity := 45;
     get_temperature_from_humidity := 32;
     get_pressure := 1005;
     utcnow_strftime := fun _ => "2016-05-01 12:00:00"%string |}.

Definition hot : cycle :=
  {| get_humidity := 50;
     get_temperature_from_humidity := 60;
     get_pressure := 1000;
     utcnow_strftime := fun _ => "2016-05-01 12:00:30"%string |}.

(** ** Class ClimateDB *)

(** The Python values that can reach [ClimateDB.write]: a [str], a
    [unicode], a [float], an [int] and [None]. *)
Inductive value : Type :=
| Str (s : string)
| Unicode (s : string)
| Float (x : R)
| Int (n : Z)
| NoneValue.

(** A row of the table [ClimateRecord]. *)
Record row : Type := {
  TimeStamp : string;
  Humidity : R;
  Temperature : R;
  Pressure : R
}.

(** The database files of a well-formed environment: for each path the
    rows of its table [ClimateRecord], in insertion order, or [None] when
    the file is missing or has no such table.  The model covers paths
    that sqlite can open, each naming a file of its own, whose table, when
    there is one, has the four columns of the notebook.  Outside it are a
    path that cannot be opened, [:memory:], two paths for one file and a
    [ClimateRecord] of another shape, where sqlite raises or keeps
    nothing; the properties stated of the database below are those that
    hold there as well, or say what they assume. *)
Definition store : Type := string -> option (list row).

Definition store_set (st : store) (path : string) (rows : list row) : store :=
  fun p => if String.eqb p path then Some rows else st p.

Module ClimateDB.

(** The [assert] statements of the class. *)
Inductive assertion : Type :=
| NeedPath
| TimestampNotString
| HumidityNotNumber
| TemperatureNotNumber
| PressureNotNumber.

Definition message (a : assertion) : string :=
  match a with
  | NeedPath => "ClimateDB: need path to database file."
  | TimestampNotString => "ClimateDB.write: timestamp is not a string"
  | HumidityNotNumber => "ClimateDB.write: humidity is not a number"
  | TemperatureNotNumber => "ClimateDB.write: temperature is not a number"
  | PressureNotNumber => "ClimateDB.write: pressure is not a number"
  end.

(** [AssertionError] of the class, and sqlite's [OperationalError] for an
    [INSERT] into a table that does not exist. *)
Inductive exn : Type :=
| AssertionError (a : assertion)
| OperationalError (msg : string).

Record state : Type := { dbfile : string }.

(** A method of the class acts on the database files. *)
Definition method (A : Type) : Type := store -> store * (exn + A).

Definition mret {A : Type} (x : A) : method A := fun st => (st, inr x).

Definition mbind {A B : Type} (c : method A) (k : A -> method B) : method B :=
  fun st =>
    match c st with
    | (st', inl e) => (st', inl e)
    | (st', inr x) => k x st'
    end.

Declare Scope db_scope.
Notation "x <- c ;; k" := (mbind c (fun x => k))
  (at level 61, c at next level, right associativity) : db_scope.
Notation "c ;; k" := (mbind c (fun _ => k))
  (at level 61, right associativity) : db_scope.
Open Scope db_scope.

Definition raise {A : Type} (e : exn) : method A := fun st => (st, inl e).

(** [type(v) is types.StringType] and [type(v) is types.FloatType]. *)
Definition is_string (v : value) : bool :=
  match v with
  | Str _ => true
  | _ => false
  end.

Definition is_float (v : value) : bool :=
  match v with
  | Float _ => true
  | _ => false
  end.

(** [assert type(v) is types.StringType, msg] and
    [assert type(v) is types.FloatType, msg]: past the assertion the value
    is known to be a string, or a float. *)
Definition assert_string (v : value) (a : assertion) : method string :=
  match v with
  | Str s => mret s
  | _ => raise (AssertionError a)
  end.

Definition assert_float (v : value) (a : assertion) : method R :=
  match v with
  | Float x => mret x
  | _ => raise (AssertionError a)
  end.

(** [CREATE TABLE IF NOT EXISTS ClimateRecord (TimeStamp TEXT, Humidity
    REAL, Temperature REAL, Pressure REAL)] on a file of the well-formed
    environment, where the connection and the statement succeed. *)
Definition create_table_if_not_exists (path : string) : method unit :=
  fun st =>
    match st path with
    | Some _ => (st, inr tt)
    | None => (store_set st path [], inr tt)
    end.

(** [INSERT INTO ClimateRecord VALUES(?,?,?,?)] followed by the commit,
    on a file of the well-formed environment: sqlite raises when the
    table is missing; a file it creates on the way holds no table and is
    [None] as before. *)
Definition insert (path : string) (values : row) : method unit :=
  fun st =>
    match st path with
    | Some rows => (store_set st path (rows ++ [values]), inr tt)
    | None => (st, inl (OperationalError "no such table: ClimateRecord"))
    end.

(** [ClimateDB(dbfile)], with [None] for the default argument: the
    assertion [dbfile != None], then the creation of the table. *)
Definition init (dbfile : option string) : method state :=
  match dbfile with
  | None => raise (AssertionError NeedPath)
  | Some path =>
      create_table_if_not_exists path ;;
      mret {| dbfile := path |}
  end.

Definition write (self : state) (timestamp humidity temperature pressure : value)
  : method unit :=
  ts <- assert_string timestamp TimestampNotString ;;
  h <- assert_float humidity HumidityNotNumber ;;
  t <- assert_float temperature TemperatureNotNumber ;;
  p <- assert_float pressure PressureNotNumber ;;
  insert (dbfile self)
    {| TimeStamp := ts; Humidity := h; Temperature := t; Pressure := p |}.

Close Scope db_scope.

End ClimateDB.

(** ** The main program *)

Inductive main_exn : Type :=
| SensorError (e : exn)
| DatabaseError (e : ClimateDB.exn).

(** What the program acts on: the sensor object, the database files and
    the seconds it has asked to sleep so far. *)
Record machine : Type := {
  sensor : Sensor.state;
  disk : store;
  slept : R
}.

(** The body of the [while] loop, once, with the answers of the world for
    this cycle: the exception that ends the program, or nothing. *)
Definition iteration (db : ClimateDB.state) (w : cycle) (m : machine)
  : machine * option main_exn :=
  match Sensor.update w (sensor m) with
  | (s1, inl e) =>
      ({| sensor := s1; disk := disk m; slept := slept m |},
       Some (SensorError e))
  | (s1, inr _) =>
      match Main.corrected_record s1 with
      | (s2, inl e) =>
          ({| sensor := s2; disk := disk m; slept := slept m |},
           Some (SensorError e))
      | (s2, inr (ts, ah, ta, pa)) =>
          match ClimateDB.write db (Str ts) (Float ah) (Float ta) (Float pa)
                  (disk m) with
          | (d1, inl e) =>
              ({| sensor := s2; disk := d1; slept := slept m |},
               Some (DatabaseError e))
          | (d1, inr _) =>
              match Sensor.wait s2 with
              | (s3, inl e) =>
                  ({| sensor := s3; disk := d1; slept := slept m |},
                   Some (SensorError e))
              | (s3, inr seconds) =>
                  ({| sensor := s3; disk := d1; slept := slept m + seconds |},
                   None)
              end
          end
      end
  end.

(** The loop over the cycles the world provides: it stops at the first
    exception; with no exception it is still running when the list is
    used up. *)
Fixpoint loop (db : ClimateDB.state) (ws : list cycle) (m : machine)
  : machine * option main_exn :=
  match ws with
  | [] => (m, None)
  | w :: ws' =>
      match iteration db w m with
      | (m1, Some e) => (m1, Some e)
      | (m1, None) => loop db ws' m1
      end
  end.

Definition roomclimate : string := "/home/pi/Documents/roomclimate.db".

(** The program from its first statement, on the database files [d]. *)
Definition main (ws : list cycle) (d : store) : machine * option main_exn :=
  match ClimateDB.init (Some roomclimate) d with
  | (d1, inl e) =>
      ({| sensor := Sensor.init; disk := d1; slept := 0 |},
       Some (DatabaseError e))
  | (d1, inr CliDB) =>
      loop CliDB ws {| sensor := Sensor.init; disk := d1; slept := 0 |}
  end.

(** The row the program stores for a cycle whose readings are valid. *)
Definition row_of (w : cycle) : row :=
  {| TimeStamp := utcnow_strftime w (Sensor.timestamp_fmt Sensor.init);
     Humidity :=
       get_humidity w
       * buck_formula (get_pressure w) (get_temperature_from_humidity w)
       / buck_formula (ambient_pressure (get_pressure w))
           (ambient_temperature (get_temperature_from_humidity w));
     Temperature := ambient_temperature (get_temperature_from_humidity w);
     Pressure := ambient_pressure (get_pressure w) |}.

(** The readings with which a cycle completes: inside the sensor bounds
    and not above the validity range of Buck's formula. *)
Definition completes (w : cycle) : Prop :=
  in_sensor_range w /\ get_temperature_from_humidity w <= 50.


(** The rows of the table at [path], none when there is no table. *)
Definition rows_at (d : store) (path : string) : list row :=
  match d path with
  | Some rows => rows
  | None => []
  end.

(** ** Basic facts about the monads *)

Lemma assert_pass (P : Prop) (cond : {P} + {~ P}) (a : assertion) :
  P -> assert cond a = inr tt.
Proof. intros HP. unfold assert. destruct cond as [_ | HN]; [reflexivity | contradiction]. Qed.

Lemma assert_fail (P : Prop) (cond : {P} + {~ P}) (a : assertion) :
  ~ P -> assert cond a = inl (AssertionError a).
Proof. intros HN. unfold assert. destruct cond as [HP | _]; [contradiction | reflexivity]. Qed.

Lemma truediv_nonzero (x y : R) : y <> 0 -> truediv x y = inr (x / y).
Proof. intros Hy. unfold truediv. destruct (Req_dec_T y 0); [contradiction | reflexivity]. Qed.

(** ** Buck's formula *)

Lemma buck_formula_pos (p t : R) : p > 0 -> buck_formula p t > 0.
Proof.
  intros Hp. unfold buck_formula.
  apply Rmult_gt_0_compat; [lra | apply exp_pos].
Qed.

Lemma buck_exponent_increasing (t1 t2 : R) :
  -20 <= t1 -> t1 < t2 ->
  17.502 * t1 / (240.97 + t1) < 17.502 * t2 / (240.97 + t2).
Proof.
  intros H1 H12.
  assert (D1 : 0 < 240.97 + t1) by lra.
  assert (D2 : 0 < 240.97 + t2) by lra.
  apply Rmult_lt_reg_r with (r := (240.97 + t1) * (240.97 + t2)).
  - apply Rmult_lt_0_compat; assumption.
  - replace (17.502 * t1 / (240.97 + t1) * ((240.97 + t1) * (240.97 + t2)))
      with (17.502 * t1 * (240.97 + t2)) by (field; lra).
    replace (17.502 * t2 / (240.97 + t2) * ((240.97 + t1) * (240.97 + t2)))
      with (17.502 * t2 * (240.97 + t1)) by (field; lra).
    nra.
Qed.

Lemma buck_formula_increasing (p t1 t2 : R) :
  p > 0 -> -20 <= t1 -> t1 < t2 -> buck_formula p t1 < buck_formula p t2.
Proof.
  intros Hp H1 H12. unfold buck_formula.
  apply Rmult_lt_compat_l; [lra |].
  apply exp_increasing, buck_exponent_increasing; assumption.
Qed.

(** Inside its validity range the function passes its four assertions
    and returns the value of the formula. *)
Lemma buck_vapor_pressure_valid (p t : R) :
  p > 0 -> -20 <= t <= 50 -> buck_vapor_pressure p t = inr (buck_formula p t).
Proof.
  intros Hp [Hlo Hhi]. unfold buck_vapor_pressure.
  rewrite (assert_pass _ _ _ Hp). cbn [bind].
  rewrite (assert_pass _ (Rge_dec t (-20))) by lra. cbn [bind].
  rewrite (assert_pass _ (Rle_dec t 50)) by lra. cbn [bind].
  unfold buck_constant. cbn [nth buck_constants].
  rewrite truediv_nonzero by lra. cbn [bind].
  fold (buck_formula p t).
  rewrite assert_pass by (apply buck_formula_pos; assumption).
  reflexivity.
Qed.

(** Whatever the arguments, the function never raises from its output
    assertion nor from its division: past the three input assertions the
    divisor is at least 220.97 and the product is positive. *)
Lemma buck_vapor_pressure_cases (p t : R) :
  buck_vapor_pressure p t = inr (buck_formula p t)
  \/ buck_vapor_pressure p t = inl (AssertionError BuckNegativePressure)
  \/ buck_vapor_pressure p t = inl (AssertionError BuckTemperatureBelow)
  \/ buck_vapor_pressure p t = inl (AssertionError BuckTemperatureAbove).
Proof.
  destruct (Rgt_dec p 0) as [Hp | Hp].
  - destruct (Rge_dec t (-20)) as [Hlo | Hlo].
    + destruct (Rle_dec t 50) as [Hhi | Hhi].
      * left. apply buck_vapor_pressure_valid; lra.
      * right; right; right. unfold buck_vapor_pressure.
        rewrite (assert_pass _ _ _ Hp). cbn [bind].
        rewrite (assert_pass _ _ _ Hlo). cbn [bind].
        rewrite (assert_fail _ _ _ Hhi). reflexivity.
    + right; right; left. unfold buck_vapor_pressure.
      rewrite (assert_pass _ _ _ Hp). cbn [bind].
      rewrite (assert_fail _ _ _ Hlo). reflexivity.
  - right; left. unfold buck_vapor_pressure.
    rewrite (assert_fail _ _ _ Hp). reflexivity.
Qed.

Lemma buck_vapor_pressure_above (p t : R) :
  p > 0 -> 50 < t ->
  buck_vapor_pressure p t = inl (AssertionError BuckTemperatureAbove).
Proof.
  intros Hp Ht. unfold buck_vapor_pressure.
  rewrite (assert_pass _ _ _ Hp). cbn [bind].
  rewrite (assert_pass _ (Rge_dec t (-20))) by lra. cbn [bind].
  rewrite (assert_fail _ (Rle_dec t 50)) by lra. reflexivity.
Qed.

(** ** The humidity correction *)

Lemma ambient_humidity_valid (h mt mp ta pa : R) :
  mp > 0 -> pa > 0 -> -20 <= mt <= 50 -> -20 <= ta <= 50 ->
  ambient_humidity h mt mp ta pa
  = inr (h * buck_formula mp mt / buck_formula pa ta).
Proof.
  intros Hmp Hpa Hmt Hta. unfold ambient_humidity.
  rewrite (buck_vapor_pressure_valid mp mt Hmp Hmt). cbn [bind].
  rewrite (buck_vapor_pressure_valid pa ta Hpa Hta). cbn [bind].
  apply truediv_nonzero.
  pose proof (buck_formula_pos pa ta Hpa). lra.
Qed.

Lemma ambient_humidity_inside_above (h mt mp ta pa : R) :
  mp > 0 -> 50 < mt ->
  ambient_humidity h mt mp ta pa = inl (AssertionError BuckTemperatureAbove).
Proof.
  intros Hmp Hmt. unfold ambient_humidity.
  rewrite (buck_vapor_pressure_above mp mt Hmp Hmt). reflexivity.
Qed.

(** The linear fit maps the part of the sensor range on which Buck's
    formula is valid into the validity range. *)
Lemma ambient_temperature_valid (t : R) :
  0 <= t <= 50 -> -20 <= ambient_temperature t <= 50.
Proof. unfold ambient_temperature, a_fit, b_fit. intros H. lra. Qed.

(** ** One cycle of the sensor *)

Lemma update_in_range (w : cycle) (s : Sensor.state) :
  in_sensor_range w ->
  Sensor.update w s =
    match cycle_humidity w with
    | inr ah => (corrected w s ah, inr tt)
    | inl e => (before_humidity w s, inl e)
    end.
Proof.
  intros [[Hh0 Hh1] [[Ht0 Ht1] [Hp0 Hp1]]].
  unfold Sensor.update, Sensor.mbind, Sensor.lift, Sensor.getattr, Sensor.gets.
  cbn.
  rewrite (assert_pass _ (Rge_dec (get_humidity w) 0)) by lra.
  rewrite (assert_pass _ (Rle_dec (get_humidity w) 100)) by lra.
  cbn.
  rewrite (assert_pass _ (Rge_dec (get_temperature_from_humidity w) 0)) by lra.
  rewrite (assert_pass _ (Rle_dec (get_temperature_from_humidity w) 65)) by lra.
  cbn.
  rewrite (assert_pass _ (Rge_dec (get_pressure w) 260)) by lra.
  rewrite (assert_pass _ (Rle_dec (get_pressure w) 1260)) by lra.
  cbn.
  unfold Sensor.compute_ambient_values, Sensor.mbind, Sensor.lift, Sensor.getattr.
  cbn. unfold cycle_humidity.
  destruct (ambient_humidity _ _ _ _ _); reflexivity.
Qed.

Lemma sensor_assertion_kind (a : assertion) :
  sensor_assertion a = true <-> kind_of (AssertionError a) = Some SensorOutOfRange.
Proof. destruct a; cbn; split; intros H; try reflexivity; discriminate H. Qed.

Ltac check_passes c :=
  let H := fresh "H" in
  destruct c as [H | H];
  [ cbn [assert ret raise]
  | cbn [assert ret raise];
    eexists; split; [reflexivity | split; reflexivity] ].

Lemma update_out_of_range (w : cycle) (s : Sensor.state) :
  ~ in_sensor_range w ->
  exists a,
    snd (Sensor.update w s) = inl (AssertionError a)
    /\ sensor_assertion a = true
    /\ record_attributes (fst (Sensor.update w s)) = record_attributes s.
Proof.
  intros Hout.
  unfold Sensor.update, Sensor.mbind, Sensor.lift, Sensor.getattr, Sensor.gets.
  cbn -[assert].
  check_passes (Rge_dec (get_humidity w) 0).
  check_passes (Rle_dec (get_humidity w) 100).
  cbn -[assert].
  check_passes (Rge_dec (get_temperature_from_humidity w) 0).
  check_passes (Rle_dec (get_temperature_from_humidity w) 65).
  cbn -[assert].
  check_passes (Rge_dec (get_pressure w) 260).
  check_passes (Rle_dec (get_pressure w) 1260).
  exfalso. apply Hout. unfold in_sensor_range. lra.
Qed.

Lemma in_sensor_range_dec (w : cycle) :
  {in_sensor_range w} + {~ in_sensor_range w}.
Proof.
  unfold in_sensor_range.
  destruct (Rle_dec 0 (get_humidity w));
    [| right; lra].
  destruct (Rle_dec (get_humidity w) 100);
    [| right; lra].
  destruct (Rle_dec 0 (get_temperature_from_humidity w));
    [| right; lra].
  destruct (Rle_dec (get_temperature_from_humidity w) 65);
    [| right; lra].
  destruct (Rle_dec 260 (get_pressure w));
    [| right; lra].
  destruct (Rle_dec (get_pressure w) 1260);
    [left; lra | right; lra].
Qed.

(** An exception out of [ambient_humidity] is one of the input assertions
    of [buck_vapor_pressure]: its division cannot fail, the divisor having
    passed the output assertion. *)
Lemma ambient_humidity_error (h mt mp ta pa : R) (e : exn) :
  ambient_humidity h mt mp ta pa = inl e -> kind_of e = Some InvalidInput.
Proof.
  unfold ambient_humidity.
  destruct (buck_vapor_pressure_cases mp mt) as [E | [E | [E | E]]];
    rewrite E; cbn [bind];
    try (intros H; injection H as <-; reflexivity).
  destruct (buck_vapor_pressure_cases pa ta) as [F | [F | [F | F]]];
    rewrite F; cbn [bind];
    try (intros H; injection H as <-; reflexivity).
  destruct (Rgt_dec pa 0) as [Hpa | Hpa].
  - rewrite truediv_nonzero; [discriminate |].
    pose proof (buck_formula_pos pa ta Hpa). lra.
  - unfold buck_vapor_pressure in F.
    rewrite (assert_fail _ _ _ Hpa) in F. discriminate F.
Qed.

Lemma update_success (w : cycle) (s : Sensor.state) :
  snd (Sensor.update w s) = inr tt ->
  in_sensor_range w
  /\ exists ah, cycle_humidity w = inr ah
                /\ fst (Sensor.update w s) = corrected w s ah.
Proof.
  intros Hok.
  destruct (in_sensor_range_dec w) as [Hin | Hout].
  - split; [assumption |].
    rewrite (update_in_range w s Hin) in *.
    destruct (cycle_humidity w) as [e | ah]; [discriminate Hok |].
    exists ah. split; reflexivity.
  - destruct (update_out_of_range w s Hout) as [a [Ha _]].
    rewrite Ha in Hok. discriminate Hok.
Qed.

(** A call of [update] that raises leaves [ambient_humidity] as it was:
    its assignment is the last statement of the cycle. *)
Lemma update_failure_keeps_humidity (w : cycle) (s : Sensor.state) :
  failed (snd (Sensor.update w s)) ->
  Sensor.ambient_humidity (fst (Sensor.update w s)) = Sensor.ambient_humidity s.
Proof.
  intros Hf.
  destruct (in_sensor_range_dec w) as [Hin | Hout].
  - rewrite (update_in_range w s Hin) in *.
    destruct (cycle_humidity w) as [e | ah]; [reflexivity | contradiction Hf].
  - destruct (update_out_of_range w s Hout) as [a [_ [_ Hrec]]].
    unfold record_attributes in Hrec. congruence.
Qed.

Lemma run_failures_keep_humidity (ws : list cycle) :
  forall s : Sensor.state,
    Forall failed (snd (run s ws)) ->
    Sensor.ambient_humidity (fst (run s ws)) = Sensor.ambient_humidity s.
Proof.
  induction ws as [| w ws IH]; intros s Hall; [reflexivity |].
  cbn [run] in *.
  pose proof (update_failure_keeps_humidity w s) as Hstep.
  destruct (Sensor.update w s) as [s1 r].
  specialize (IH s1).
  destruct (run s1 ws) as [s2 rs].
  cbn [fst snd] in *.
  inversion Hall as [| ? ? Hr Hrs]; subst.
  rewrite (IH Hrs). apply Hstep. exact Hr.
Qed.

Lemma update_rejected_keeps_record (w : cycle) (s : Sensor.state) :
  rejected (snd (Sensor.update w s)) ->
  ~ in_sensor_range w
  /\ record_attributes (fst (Sensor.update w s)) = record_attributes s.
Proof.
  intros Hrej.
  destruct (in_sensor_range_dec w) as [Hin | Hout].
  - exfalso. rewrite (update_in_range w s Hin) in Hrej.
    unfold cycle_humidity in Hrej.
    destruct (ambient_humidity _ _ _ _ _) as [e | ah] eqn:E; cbn in Hrej.
    + rewrite (ambient_humidity_error _ _ _ _ _ _ E) in Hrej. discriminate Hrej.
    + exact Hrej.
  - split; [assumption |].
    destruct (update_out_of_range w s Hout) as [a [_ [_ Hrec]]]. exact Hrec.
Qed.

Lemma run_rejected_keeps_record (ws : list cycle) :
  forall s : Sensor.state,
    Forall rejected (snd (run s ws)) ->
    record_attributes (fst (run s ws)) = record_attributes s.
Proof.
  induction ws as [| w ws IH]; intros s Hall; [reflexivity |].
  cbn [run] in *.
  pose proof (update_rejected_keeps_record w s) as Hstep.
  destruct (Sensor.update w s) as [s1 r].
  specialize (IH s1).
  destruct (run s1 ws) as [s2 rs].
  cbn [fst snd] in *.
  inversion Hall as [| ? ? Hr Hrs]; subst.
  rewrite (IH Hrs). apply Hstep. exact Hr.
Qed.

Lemma mild_in_range : in_sensor_range mild.
Proof. unfold in_sensor_range, mild; cbn. lra. Qed.

Lemma hot_in_range : in_sensor_range hot.
Proof. unfold in_sensor_range, hot; cbn. lra. Qed.

Lemma update_valid (w : cycle) (s : Sensor.state) :
  in_sensor_range w -> get_temperature_from_humidity w <= 50 ->
  Sensor.update w s
  = (corrected w s
       (get_humidity w
        * buck_formula (get_pressure w) (get_temperature_from_humidity w)
        / buck_formula (ambient_pressure (get_pressure w))
            (ambient_temperature (get_temperature_from_humidity w))),
     inr tt).
Proof.
  intros Hin Ht. rewrite (update_in_range w s Hin).
  destruct Hin as [_ [[Ht0 _] [Hp0 _]]].
  unfold cycle_humidity.
  rewrite ambient_humidity_valid;
    [reflexivity | | | | apply ambient_temperature_valid ];
    unfold ambient_pressure; lra.
Qed.

Lemma update_too_hot (w : cycle) (s : Sensor.state) :
  in_sensor_range w -> 50 < get_temperature_from_humidity w ->
  Sensor.update w s
  = (before_humidity w s, inl (AssertionError BuckTemperatureAbove)).
Proof.
  intros Hin Ht. rewrite (update_in_range w s Hin).
  destruct Hin as [_ [_ [Hp0 _]]].
  unfold cycle_humidity.
  rewrite ambient_humidity_inside_above; [reflexivity | lra | exact Ht].
Qed.

(** ** Binary64 evaluation *)

(** In binary64 as well the fit is [0.8542 * t - 9.675]: adding the
    negative constant and subtracting the positive one are the same IEEE
    operation, also at infinities and not-a-number. *)
Lemma binary64_ambient_temperature_sub (t : float) :
  Binary64.ambient_temperature t = (0.8542 * t - 9.675)%float.
Proof.
  unfold Binary64.ambient_temperature, Binary64.a_fit, Binary64.b_fit.
  apply Prim2SF_inj. rewrite add_spec, sub_spec.
  destruct (Prim2SF (0.8542 * t)) as [s | s | | s m e]; reflexivity.
Qed.

(** The value at 0 degrees and 1013.25 hPa, the sanity value of the
    specification (about 6.11 hPa, within one percent). *)
Lemma binary64_vapor_pressure_at_zero :
  Binary64.buck_vapor_pressure 1013.25 0
  = Some (inr 6.1378065452244996%float).
Proof. vm_compute. reflexivity. Qed.

(** Outside the validity range the outcome does not depend on the
    exponential. *)
Lemma binary64_vapor_pressure_at_sixty :
  Binary64.buck_vapor_pressure 1000 60
  = Some (inl (AssertionError BuckTemperatureAbove)).
Proof. vm_compute. reflexivity. Qed.

(** * The properties of the specification *)

(** C1: for every air pressure above 0 and every temperature from -20 to
    50, [buck_vapor_pressure] (the specification's
    saturation_vapor_pressure) returns
    (1.0007 + 3.46e-6 * air_pressure) * 6.1121
    * exp (17.502 * temperature / (240.97 + temperature)). *)
Theorem saturation_vapor_pressure_formula (air_pressure temperature : R) :
  air_pressure > 0 -> -20 <= temperature <= 50 ->
  buck_vapor_pressure air_pressure temperature
  = inr ((1.0007 + 3.46e-6 * air_pressure) * 6.1121
         * exp (17.502 * temperature / (240.97 + temperature))).
Proof.
  intros Hp Ht. rewrite (buck_vapor_pressure_valid _ _ Hp Ht). reflexivity.
Qed.

Lemma saturation_vapor_pressure_formula_witness :
  1013.25 > 0 /\ -20 <= 0 <= 50
  /\ buck_vapor_pressure 1013.25 0
     = inr ((1.0007 + 3.46e-6 * 1013.25) * 6.1121
            * exp (17.502 * 0 / (240.97 + 0))).
Proof.
  split; [lra |]. split; [lra |].
  apply (saturation_vapor_pressure_formula 1013.25 0); lra.
Defined.

(** C2: [update] raises one of its own range assertions exactly when a
    reading is outside its bounds, humidity outside 0 to 100, temperature
    outside 0 to 65 or pressure outside 260 to 1260; a humidity of 150, a
    temperature of 70 and a pressure of 200 each do so; and such a call
    leaves the four attributes of the corrected record as they were. *)
Theorem update_sensor_out_of_range (w : cycle) (s : Sensor.state) :
  (rejected (snd (Sensor.update w s)) <-> ~ in_sensor_range w)
  /\ (get_humidity w = 150 \/ get_temperature_from_humidity w = 70
      \/ get_pressure w = 200 ->
      rejected (snd (Sensor.update w s)))
  /\ (rejected (snd (Sensor.update w s)) ->
      record_attributes (fst (Sensor.update w s)) = record_attributes s).
Proof.
  assert (Hback : ~ in_sensor_range w -> rejected (snd (Sensor.update w s))).
  { intros Hout.
    destruct (update_out_of_range w s Hout) as [a [Ha [Hs _]]].
    rewrite Ha. cbn. apply sensor_assertion_kind. exact Hs. }
  split; [| split].
  - split; [| exact Hback].
    intros Hrej. apply (update_rejected_keeps_record w s Hrej).
  - intros Hbad. apply Hback. unfold in_sensor_range. lra.
  - intros Hrej. apply (update_rejected_keeps_record w s Hrej).
Qed.

(** A humidity of 150 on a fresh object: the call is rejected and the
    record is still absent. *)
Lemma update_sensor_out_of_range_witness :
  let w := {| get_humidity := 150;
              get_temperature_from_humidity := 32;
              get_pressure := 1005;
              utcnow_strftime := fun _ => "2016-05-01 12:01:00"%string |} in
  rejected (snd (Sensor.update w Sensor.init))
  /\ record_attributes (fst (Sensor.update w Sensor.init))
     = (None, None, None, None).
Proof.
  intros w.
  destruct (update_sensor_out_of_range w Sensor.init) as [_ [Hex Hkeep]].
  assert (Hrej : rejected (snd (Sensor.update w Sensor.init))).
  { apply Hex. left. reflexivity. }
  split; [exact Hrej |].
  rewrite (Hkeep Hrej). reflexivity.
Defined.

(** C3, as amended: [ambient_temperature t] is 0.8542 * t - 9.675 for
    every [t], in exact arithmetic and in binary64, and
    [ambient_temperature 30] is 15.951 (in binary64 the number next to
    it, 15.950999999999997). *)
Theorem ambient_temperature_affine :
  (forall t : R, ambient_temperature t = 0.8542 * t - 9.675)
  /\ (forall t : float,
        Binary64.ambient_temperature t = (0.8542 * t - 9.675)%float)
  /\ ambient_temperature 30 = 15.951
  /\ Binary64.ambient_temperature 30 = 15.950999999999997%float.
Proof.
  split; [| split; [| split]].
  - intros t. unfold ambient_temperature, a_fit, b_fit. lra.
  - exact binary64_ambient_temperature_sub.
  - unfold ambient_temperature, a_fit, b_fit. lra.
  - vm_compute. reflexivity.
Qed.

(** C3 as stated fails at 30: the value is exactly 1 below 16.951, which
    is not within one percent of it; in binary64 it is below 16 as well. *)
Lemma ambient_temperature_30_not_16_951 :
  ambient_temperature 30 - 16.951 = -1
  /\ ~ approx 0.01 (ambient_temperature 30) 16.951
  /\ (Binary64.ambient_temperature 30 <? 16)%float = true.
Proof.
  assert (E : ambient_temperature 30 - 16.951 = -1)
    by (unfold ambient_temperature, a_fit, b_fit; lra).
  split; [exact E |]. split; [| vm_compute; reflexivity].
  unfold approx. rewrite E.
  rewrite (Rabs_left (-1)), (Rabs_pos_eq 16.951) by lra. lra.
Qed.

(** C4, as amended: on a freshly constructed object each of the four
    reads raises [AttributeError] (the specification's NotReady); as long
    as every [update] so far stopped at a range check all four keep
    raising; as long as no [update] succeeded the read of
    [ambient_humidity] raises, and with it the read of the record as the
    main loop performs it; after a successful [update] the four reads and
    the record succeed. *)
Theorem corrected_record_not_ready :
  (snd (Main.read_timestamp Sensor.init) = inl (AttributeError "timestamp")
   /\ snd (Main.read_ambient_humidity Sensor.init)
      = inl (AttributeError "ambient_humidity")
   /\ snd (Main.read_ambient_temperature Sensor.init)
      = inl (AttributeError "ambient_temperature")
   /\ snd (Main.read_ambient_pressure Sensor.init)
      = inl (AttributeError "ambient_pressure"))
  /\ (forall ws : list cycle,
        Forall rejected (snd (run Sensor.init ws)) ->
        snd (Main.read_timestamp (fst (run Sensor.init ws)))
        = inl (AttributeError "timestamp")
        /\ snd (Main.read_ambient_humidity (fst (run Sensor.init ws)))
           = inl (AttributeError "ambient_humidity")
        /\ snd (Main.read_ambient_temperature (fst (run Sensor.init ws)))
           = inl (AttributeError "ambient_temperature")
        /\ snd (Main.read_ambient_pressure (fst (run Sensor.init ws)))
           = inl (AttributeError "ambient_pressure"))
  /\ (forall ws : list cycle,
        Forall failed (snd (run Sensor.init ws)) ->
        snd (Main.read_ambient_humidity (fst (run Sensor.init ws)))
        = inl (AttributeError "ambient_humidity")
        /\ exists name,
             snd (Main.corrected_record (fst (run Sensor.init ws)))
             = inl (AttributeError name))
  /\ (forall (w : cycle) (s : Sensor.state),
        snd (Sensor.update w s) = inr tt ->
        exists ts ah ta pa,
          snd (Main.read_timestamp (fst (Sensor.update w s))) = inr ts
          /\ snd (Main.read_ambient_humidity (fst (Sensor.update w s))) = inr ah
          /\ snd (Main.read_ambient_temperature (fst (Sensor.update w s)))
             = inr ta
          /\ snd (Main.read_ambient_pressure (fst (Sensor.update w s))) = inr pa
          /\ snd (Main.corrected_record (fst (Sensor.update w s)))
             = inr (ts, ah, ta, pa)).
Proof.
  split; [repeat split |]. split; [| split].
  - intros ws Hall.
    pose proof (run_rejected_keeps_record ws _ Hall) as Hrec.
    unfold record_attributes in Hrec. cbn [Sensor.init Sensor.timestamp
      Sensor.ambient_humidity Sensor.ambient_temperature
      Sensor.ambient_pressure] in Hrec.
    injection Hrec as Hts Hah Hta Hpa.
    unfold Main.read_timestamp, Main.read_ambient_humidity,
      Main.read_ambient_temperature, Main.read_ambient_pressure,
      Sensor.getattr.
    rewrite Hts, Hah, Hta, Hpa. repeat split.
  - intros ws Hall.
    pose proof (run_failures_keep_humidity ws _ Hall) as Hnone.
    cbn [Sensor.ambient_humidity Sensor.init] in Hnone.
    unfold Main.corrected_record, Main.read_ambient_humidity,
      Main.read_timestamp, Sensor.mbind, Sensor.getattr.
    split; [rewrite Hnone; reflexivity |].
    destruct (Sensor.timestamp (fst (run Sensor.init ws)));
      [rewrite Hnone |]; eexists; reflexivity.
  - intros w s Hok.
    destruct (update_success w s Hok) as [_ [ah [_ Hst]]].
    rewrite Hst.
    exists (utcnow_strftime w (Sensor.timestamp_fmt s)), ah,
      (ambient_temperature (get_temperature_from_humidity w)),
      (ambient_pressure (get_pressure w)).
    repeat split.
Qed.

(** One rejected cycle (pressure 200) followed by the hot cycle: no
    update has succeeded and the humidity read raises; after the mild
    cycle the record can be read. *)
Lemma corrected_record_not_ready_witness :
  let low := {| get_humidity := 45;
                get_temperature_from_humidity := 32;
                get_pressure := 200;
                utcnow_strftime := fun _ => "2016-05-01 12:00:00"%string |} in
  snd (Main.read_ambient_humidity (fst (run Sensor.init [low; hot])))
  = inl (AttributeError "ambient_humidity")
  /\ exists ts ah ta pa,
       snd (Main.corrected_record (fst (Sensor.update mild Sensor.init)))
       = inr (ts, ah, ta, pa).
Proof.
  intros low.
  destruct corrected_record_not_ready as [_ [_ [Hfail Hok]]].
  split.
  - apply (Hfail [low; hot]).
    assert (Hlow : ~ in_sensor_range low)
      by (unfold in_sensor_range, low; cbn; lra).
    destruct (update_out_of_range low Sensor.init Hlow) as [a [Ha _]].
    cbn [run].
    destruct (Sensor.update low Sensor.init) as [s1 r1]. cbn [snd] in Ha.
    rewrite (update_too_hot hot s1 hot_in_range)
      by (unfold hot; cbn; lra).
    subst r1. cbn. repeat constructor.
  - destruct (Hok mild Sensor.init) as [ts [ah [ta [pa H]]]].
    + rewrite (update_valid mild Sensor.init mild_in_range)
        by (unfold mild; cbn; lra).
      reflexivity.
    + exists ts, ah, ta, pa. apply H.
Defined.

(** C4 as stated fails after a cycle that passed the range checks and
    raised inside the vapor-pressure computation: no [update] has
    succeeded, yet three of the four reads return a value. *)
Lemma partial_record_after_failed_update :
  snd (Sensor.update hot Sensor.init)
  = inl (AssertionError BuckTemperatureAbove)
  /\ snd (Main.read_timestamp (fst (Sensor.update hot Sensor.init)))
     = inr "2016-05-01 12:00:30"%string
  /\ snd (Main.read_ambient_temperature (fst (Sensor.update hot Sensor.init)))
     = inr 41.577
  /\ snd (Main.read_ambient_pressure (fst (Sensor.update hot Sensor.init)))
     = inr 1000.
Proof.
  rewrite (update_too_hot hot Sensor.init hot_in_range)
    by (unfold hot; cbn; lra).
  cbn. repeat split.
  f_equal. unfold ambient_temperature, a_fit, b_fit. lra.
Qed.

(** C5, as amended: in exact arithmetic, at a fixed air pressure above 0
    the saturation vapor pressure is strictly increasing in the
    temperature over -20 to 50. *)
Theorem saturation_vapor_pressure_increasing (p t1 t2 : R) :
  p > 0 -> -20 <= t1 -> t1 < t2 -> t2 <= 50 ->
  exists v1 v2,
    buck_vapor_pressure p t1 = inr v1
    /\ buck_vapor_pressure p t2 = inr v2
    /\ v1 < v2.
Proof.
  intros Hp Hlo Hlt Hhi.
  exists (buck_formula p t1), (buck_formula p t2).
  split; [apply buck_vapor_pressure_valid; lra |].
  split; [apply buck_vapor_pressure_valid; lra |].
  apply buck_formula_increasing; assumption.
Qed.

Lemma saturation_vapor_pressure_increasing_witness :
  (1013.25 > 0 /\ -20 <= 0 /\ 0 < 20 /\ 20 <= 50)
  /\ exists v1 v2,
       buck_vapor_pressure 1013.25 0 = inr v1
       /\ buck_vapor_pressure 1013.25 20 = inr v2
       /\ v1 < v2.
Proof.
  split; [lra |].
  apply (saturation_vapor_pressure_increasing 1013.25 0 20); lra.
Defined.

(** C5 as stated fails in binary64: 0 and the smallest positive number
    are two temperatures of the range, the second above the first, whose
    exponents both round to 0, and the function returns the same value
    for both. *)
Lemma binary64_vapor_pressure_not_strict :
  ((0 <? 1013.25)%float = true
   /\ (-20 <=? 0)%float = true
   /\ (0 <? Binary64.tiny)%float = true
   /\ (Binary64.tiny <=? 50)%float = true)
  /\ Binary64.tiny = 0x1p-1074%float
  /\ Binary64.buck_vapor_pressure 1013.25 0
     = Some (inr 6.1378065452244996%float)
  /\ Binary64.buck_vapor_pressure 1013.25 Binary64.tiny
     = Some (inr 6.1378065452244996%float).
Proof. vm_compute. repeat split. Qed.

(** C6: for every air pressure above 0 and every temperature from -20 to
    50 the function returns a value above 0, and it does not raise from
    its output assertion. *)
Theorem saturation_vapor_pressure_positive (p t : R) :
  p > 0 -> -20 <= t <= 50 ->
  (exists v, buck_vapor_pressure p t = inr v /\ v > 0)
  /\ buck_vapor_pressure p t <> inl (AssertionError BuckNegativeOutput).
Proof.
  intros Hp Ht. rewrite (buck_vapor_pressure_valid p t Hp Ht).
  split; [| discriminate].
  exists (buck_formula p t). split; [reflexivity |].
  apply buck_formula_pos. exact Hp.
Qed.

Lemma saturation_vapor_pressure_positive_witness :
  (260 > 0 /\ -20 <= -20 <= 50)
  /\ (exists v, buck_vapor_pressure 260 (-20) = inr v /\ v > 0)
  /\ buck_vapor_pressure 260 (-20) <> inl (AssertionError BuckNegativeOutput).
Proof.
  split; [lra |].
  apply (saturation_vapor_pressure_positive 260 (-20)); lra.
Defined.

(** The output assertion is out of reach for all arguments, not only the
    valid ones, and so is the division by zero. *)
Lemma buck_vapor_pressure_never_internal (p t : R) (e : exn) :
  buck_vapor_pressure p t = inl e -> kind_of e = Some InvalidInput.
Proof.
  destruct (buck_vapor_pressure_cases p t) as [E | [E | [E | E]]];
    rewrite E; intros H; [discriminate H | | |];
    injection H as <-; reflexivity.
Qed.

(** C7, as amended: in exact arithmetic, when the measured and the
    ambient temperature are equal, the two pressures are equal, and they
    lie in the validity domain of Buck's formula, [ambient_humidity]
    returns the measured humidity. *)
Theorem ambient_humidity_round_trip (h mt mp ta pa : R) :
  mp > 0 -> -20 <= mt <= 50 -> mt = ta -> mp = pa ->
  ambient_humidity h mt mp ta pa = inr h.
Proof.
  intros Hp Ht <- <-.
  rewrite (ambient_humidity_valid h mt mp mt mp Hp Hp Ht Ht).
  f_equal. pose proof (buck_formula_pos mp mt Hp). field. lra.
Qed.

Lemma ambient_humidity_round_trip_witness :
  (1005 > 0 /\ -20 <= 32 <= 50)
  /\ ambient_humidity 45 32 1005 32 1005 = inr 45.
Proof.
  split; [lra |].
  apply (ambient_humidity_round_trip 45 32 1005 32 1005);
    [lra | lra | reflexivity | reflexivity].
Defined.

(** C7 as stated fails in binary64, where the product is rounded before
    the division: at 0 degrees and 1013.25 hPa on both sides a humidity of
    30 comes back as the next number above 30, and a humidity of 1e308
    overflows to infinity. *)
Lemma binary64_round_trip_inexact :
  Binary64.ambient_humidity 30 0 1013.25 0 1013.25
  = Some (inr 30.000000000000004%float)
  /\ (30.000000000000004 =? 30)%float = false
  /\ Binary64.ambient_humidity 1e308 0 1013.25 0 1013.25
     = Some (inr infinity).
Proof. vm_compute. repeat split. Qed.

(** C8, as amended: in exact arithmetic, with a measured humidity and
    pressure above 0, both temperatures in the validity range, equal
    pressures and a measured temperature above the ambient one, the
    inside saturation vapor pressure exceeds the ambient one and
    [ambient_humidity] returns more than the measured humidity. *)
Theorem ambient_humidity_above_measured (h mt mp ta pa : R) :
  h > 0 -> mp > 0 -> -20 <= mt <= 50 -> -20 <= ta <= 50 ->
  mt > ta -> mp = pa ->
  exists inside ambient ah,
    buck_vapor_pressure mp mt = inr inside
    /\ buck_vapor_pressure pa ta = inr ambient
    /\ inside > ambient
    /\ ambient_humidity h mt mp ta pa = inr ah
    /\ ah > h.
Proof.
  intros Hh Hp Hmt Hta Hgt <-.
  exists (buck_formula mp mt), (buck_formula mp ta),
    (h * buck_formula mp mt / buck_formula mp ta).
  pose proof (buck_formula_pos mp ta Hp) as Hpos.
  assert (Hinc : buck_formula mp ta < buck_formula mp mt)
    by (apply buck_formula_increasing; lra).
  split; [apply buck_vapor_pressure_valid; assumption |].
  split; [apply buck_vapor_pressure_valid; assumption |].
  split; [lra |].
  split; [apply ambient_humidity_valid; assumption |].
  apply Rlt_gt.
  apply Rmult_lt_reg_r with (r := buck_formula mp ta); [lra |].
  replace (h * buck_formula mp mt / buck_formula mp ta * buck_formula mp ta)
    with (h * buck_formula mp mt) by (field; lra).
  apply Rmult_lt_compat_l; lra.
Qed.

Lemma ambient_humidity_above_measured_witness :
  (45 > 0 /\ 1005 > 0 /\ -20 <= 32 <= 50 /\ -20 <= 17.6594 <= 50
   /\ 32 > 17.6594)
  /\ exists inside ambient ah,
       buck_vapor_pressure 1005 32 = inr inside
       /\ buck_vapor_pressure 1005 17.6594 = inr ambient
       /\ inside > ambient
       /\ ambient_humidity 45 32 1005 17.6594 1005 = inr ah
       /\ ah > 45.
Proof.
  split; [lra |].
  apply (ambient_humidity_above_measured 45 32 1005 17.6594 1005);
    [lra | lra | lra | lra | lra | reflexivity].
Defined.

(** C8 as stated fails in binary64: with the smallest positive number as
    measured temperature and 0 as ambient temperature, at 1005 hPa, the
    two vapor pressures are the same number and a humidity of 45 comes
    back as 45. *)
Lemma binary64_humidity_not_above :
  ((0 <? 45)%float = true
   /\ (0 <? 1005)%float = true
   /\ (-20 <=? 0)%float = true
   /\ (0 <? Binary64.tiny)%float = true
   /\ (Binary64.tiny <=? 50)%float = true)
  /\ Binary64.buck_vapor_pressure 1005 Binary64.tiny
     = Some (inr 6.1376320753299991%float)
  /\ Binary64.buck_vapor_pressure 1005 0
     = Some (inr 6.1376320753299991%float)
  /\ Binary64.ambient_humidity 45 Binary64.tiny 1005 0 1005
     = Some (inr 45%float).
Proof. vm_compute. repeat split. Qed.

(** C9: [ambient_pressure] is the identity, on real and on binary64
    numbers, and the pressure that a successful cycle stores in the
    corrected record is the pressure the sensor returned. *)
Theorem ambient_pressure_identity :
  (forall x : R, ambient_pressure x = x)
  /\ (forall x : float, Binary64.ambient_pressure x = x)
  /\ (forall (w : cycle) (s : Sensor.state),
        snd (Sensor.update w s) = inr tt ->
        Sensor.ambient_pressure (fst (Sensor.update w s))
        = Some (get_pressure w)).
Proof.
  split; [reflexivity |]. split; [reflexivity |].
  intros w s Hok.
  destruct (update_success w s Hok) as [_ [ah [_ Hst]]].
  rewrite Hst. reflexivity.
Qed.

Lemma ambient_pressure_identity_witness :
  snd (Sensor.update mild Sensor.init) = inr tt
  /\ Sensor.ambient_pressure (fst (Sensor.update mild Sensor.init))
     = Some 1005.
Proof.
  assert (Hok : snd (Sensor.update mild Sensor.init) = inr tt).
  { rewrite (update_valid mild Sensor.init mild_in_range)
      by (unfold mild; cbn; lra).
    reflexivity. }
  split; [exact Hok |].
  apply (proj2 (proj2 ambient_pressure_identity) mild Sensor.init Hok).
Defined.

(** C10: some readings pass the range checks of [update] and still abort
    the cycle.  With all three readings in range and a temperature above
    50, the inside vapor-pressure call raises from its upper temperature
    assertion and so does [update]; with a temperature of at most 50 the
    derived ambient temperature lies between -20 and 50, both
    vapor-pressure calls return and [update] succeeds. *)
Theorem update_validity_gap :
  (exists w : cycle,
     in_sensor_range w /\ forall s, failed (snd (Sensor.update w s)))
  /\ (forall (w : cycle) (s : Sensor.state),
        in_sensor_range w ->
        50 < get_temperature_from_humidity w ->
        buck_vapor_pressure (get_pressure w) (get_temperature_from_humidity w)
        = inl (AssertionError BuckTemperatureAbove)
        /\ snd (Sensor.update w s)
           = inl (AssertionError BuckTemperatureAbove))
  /\ (forall (w : cycle) (s : Sensor.state),
        in_sensor_range w ->
        get_temperature_from_humidity w <= 50 ->
        -20 <= 0.8542 * get_temperature_from_humidity w - 9.675 <= 50
        /\ ambient_temperature (get_temperature_from_humidity w)
           = 0.8542 * get_temperature_from_humidity w - 9.675
        /\ (exists inside ambient,
              buck_vapor_pressure (get_pressure w)
                (get_temperature_from_humidity w) = inr inside
              /\ buck_vapor_pressure (ambient_pressure (get_pressure w))
                   (ambient_temperature (get_temperature_from_humidity w))
                 = inr ambient)
        /\ snd (Sensor.update w s) = inr tt).
Proof.
  split; [| split].
  - exists hot. split; [exact hot_in_range |].
    intros s. rewrite (update_too_hot hot s hot_in_range)
      by (unfold hot; cbn; lra).
    exact I.
  - intros w s Hin Ht. split.
    + apply buck_vapor_pressure_above; [| exact Ht].
      destruct Hin as [_ [_ [Hp _]]]. lra.
    + rewrite (update_too_hot w s Hin Ht). reflexivity.
  - intros w s Hin Ht.
    pose proof Hin as [_ [[Ht0 _] [Hp0 _]]].
    pose proof (ambient_temperature_valid (get_temperature_from_humidity w))
      as Hamb.
    assert (Haff : ambient_temperature (get_temperature_from_humidity w)
                   = 0.8542 * get_temperature_from_humidity w - 9.675)
      by (unfold ambient_temperature, a_fit, b_fit; lra).
    split; [rewrite <- Haff; apply Hamb; lra |].
    split; [exact Haff |].
    split.
    + eexists. eexists. split.
      * apply buck_vapor_pressure_valid; lra.
      * apply buck_vapor_pressure_valid;
          [unfold ambient_pressure; lra | apply Hamb; lra].
    + rewrite (update_valid w s Hin Ht). reflexivity.
Qed.

Lemma update_validity_gap_witness :
  (in_sensor_range hot /\ 50 < get_temperature_from_humidity hot
   /\ snd (Sensor.update hot Sensor.init)
      = inl (AssertionError BuckTemperatureAbove))
  /\ (in_sensor_range mild /\ get_temperature_from_humidity mild <= 50
      /\ snd (Sensor.update mild Sensor.init) = inr tt).
Proof.
  destruct update_validity_gap as [_ [Hhot Hmild]].
  assert (H60 : 50 < get_temperature_from_humidity hot)
    by (unfold hot; cbn; lra).
  assert (H32 : get_temperature_from_humidity mild <= 50)
    by (unfold mild; cbn; lra).
  split.
  - split; [exact hot_in_range |]. split; [exact H60 |].
    apply (Hhot hot Sensor.init hot_in_range H60).
  - split; [exact mild_in_range |]. split; [exact H32 |].
    apply (Hmild mild Sensor.init mild_in_range H32).
Defined.

(** * Further properties of the code *)

(** ** The assertions of [buck_vapor_pressure] *)

Lemma buck_vapor_pressure_nonpositive (p t : R) :
  p <= 0 ->
  buck_vapor_pressure p t = inl (AssertionError BuckNegativePressure).
Proof.
  intros Hp. unfold buck_vapor_pressure.
  rewrite (assert_fail _ (Rgt_dec p 0)) by lra. reflexivity.
Qed.

Lemma buck_vapor_pressure_below (p t : R) :
  p > 0 -> t < -20 ->
  buck_vapor_pressure p t = inl (AssertionError BuckTemperatureBelow).
Proof.
  intros Hp Ht. unfold buck_vapor_pressure.
  rewrite (assert_pass _ _ _ Hp). cbn [bind].
  rewrite (assert_fail _ (Rge_dec t (-20))) by lra. reflexivity.
Qed.

(** The four outcomes of the function and the arguments that lead to
    each. *)
Lemma buck_vapor_pressure_outcome (p t : R) :
  (p <= 0
   /\ buck_vapor_pressure p t = inl (AssertionError BuckNegativePressure))
  \/ (p > 0 /\ t < -20
      /\ buck_vapor_pressure p t = inl (AssertionError BuckTemperatureBelow))
  \/ (p > 0 /\ 50 < t
      /\ buck_vapor_pressure p t = inl (AssertionError BuckTemperatureAbove))
  \/ (p > 0 /\ -20 <= t <= 50
      /\ buck_vapor_pressure p t = inr (buck_formula p t)).
Proof.
  destruct (Rle_dec p 0) as [Hp | Hp].
  { left. split; [exact Hp |]. apply buck_vapor_pressure_nonpositive, Hp. }
  assert (Hp' : p > 0) by lra.
  destruct (Rlt_dec t (-20)) as [Hlo | Hlo].
  { right; left. repeat split; try assumption.
    apply buck_vapor_pressure_below; assumption. }
  destruct (Rlt_dec 50 t) as [Hhi | Hhi].
  { right; right; left. repeat split; try assumption.
    apply buck_vapor_pressure_above; assumption. }
  right; right; right. split; [exact Hp' |]. split; [lra |].
  apply buck_vapor_pressure_valid; [exact Hp' | lra].
Qed.

(** The same order of checks on binary64 numbers: the outcome of the
    three comparisons decides which input assertion is raised, before the
    exponential is reached. *)
Lemma binary64_buck_vapor_pressure_checks (p t : float) :
  if (0 <? p)%float then
    if (-20 <=? t)%float then
      if (t <=? 50)%float then
        forall a,
          Binary64.buck_vapor_pressure p t = Some (inl (AssertionError a)) ->
          a = BuckNegativeOutput
      else Binary64.buck_vapor_pressure p t
           = Some (inl (AssertionError BuckTemperatureAbove))
    else Binary64.buck_vapor_pressure p t
         = Some (inl (AssertionError BuckTemperatureBelow))
  else Binary64.buck_vapor_pressure p t
       = Some (inl (AssertionError BuckNegativePressure)).
Proof.
  unfold Binary64.buck_vapor_pressure.
  destruct (0 <? p)%float; [| reflexivity].
  destruct (-20 <=? t)%float; [| reflexivity].
  destruct (t <=? 50)%float; [| reflexivity].
  cbn [Binary64.assert Binary64.bind Binary64.ret].
  unfold Binary64.truediv.
  destruct (_ =? 0)%float; cbn [Binary64.bind Binary64.raise Binary64.ret];
    [intros a H; discriminate H |].
  unfold Binary64.exp.
  destruct (_ =? 0)%float; cbn [Binary64.bind Binary64.ret];
    [| intros a H; discriminate H].
  destruct (0 <? _)%float; cbn [Binary64.assert Binary64.bind Binary64.ret
                                   Binary64.raise];
    intros a H; [discriminate H | injection H as <-; reflexivity].
Qed.

(** X1: [buck_vapor_pressure] makes three comparisons in this order,
    air pressure > 0, temperature >= -20, temperature <= 50, and raises
    the assertion of the first one that is false: "negative input air
    pressure", "temperature below validity range", "temperature above
    validity range".  Over the reals each of the three is raised exactly
    in that case and a value is returned exactly when all three hold.
    On binary64 numbers, a not-a-number included, the comparisons decide
    in the same way, and when all three hold none of the three is
    raised. *)
Theorem buck_vapor_pressure_assertions :
  (forall p t : R,
     (buck_vapor_pressure p t = inl (AssertionError BuckNegativePressure)
      <-> ~ p > 0)
     /\ (buck_vapor_pressure p t = inl (AssertionError BuckTemperatureBelow)
         <-> p > 0 /\ ~ t >= -20)
     /\ (buck_vapor_pressure p t = inl (AssertionError BuckTemperatureAbove)
         <-> p > 0 /\ t >= -20 /\ ~ t <= 50)
     /\ ((exists v, buck_vapor_pressure p t = inr v)
         <-> p > 0 /\ t >= -20 /\ t <= 50))
  /\ (forall p t : float,
        ((0 <? p)%float = false ->
         Binary64.buck_vapor_pressure p t
         = Some (inl (AssertionError BuckNegativePressure)))
        /\ ((0 <? p)%float = true -> (-20 <=? t)%float = false ->
            Binary64.buck_vapor_pressure p t
            = Some (inl (AssertionError BuckTemperatureBelow)))
        /\ ((0 <? p)%float = true -> (-20 <=? t)%float = true ->
            (t <=? 50)%float = false ->
            Binary64.buck_vapor_pressure p t
            = Some (inl (AssertionError BuckTemperatureAbove)))
        /\ ((0 <? p)%float = true -> (-20 <=? t)%float = true ->
            (t <=? 50)%float = true ->
            Binary64.buck_vapor_pressure p t
            <> Some (inl (AssertionError BuckNegativePressure))
            /\ Binary64.buck_vapor_pressure p t
               <> Some (inl (AssertionError BuckTemperatureBelow))
            /\ Binary64.buck_vapor_pressure p t
               <> Some (inl (AssertionError BuckTemperatureAbove)))).
Proof.
  split.
  - intros p t.
    destruct (buck_vapor_pressure_outcome p t)
      as [[Hp E] | [[Hp [Ht E]] | [[Hp [Ht E]] | [Hp [Ht E]]]]];
      rewrite E;
      (split; [| split; [| split]]);
      (split; [intros H | intros H]);
      try discriminate H; try reflexivity; try lra;
      try (destruct H as [v H]; discriminate H).
    eexists; reflexivity.
  - intros p t.
    pose proof (binary64_buck_vapor_pressure_checks p t) as H.
    destruct (0 <? p)%float; [| repeat split; intros; congruence].
    destruct (-20 <=? t)%float; [| repeat split; intros; congruence].
    destruct (t <=? 50)%float; [| repeat split; intros; congruence].
    split; [intros; congruence |]. split; [intros; congruence |].
    split; [intros; congruence |].
    intros _ _ _.
    repeat split; intros E; specialize (H _ E); discriminate H.
Qed.

Lemma buck_vapor_pressure_assertions_witness :
  Binary64.buck_vapor_pressure 1005 nan
  = Some (inl (AssertionError BuckTemperatureBelow))
  /\ buck_vapor_pressure 1005 (-30)
     = inl (AssertionError BuckTemperatureBelow).
Proof.
  destruct buck_vapor_pressure_assertions as [Hreal Hfloat].
  split.
  - apply (proj1 (proj2 (Hfloat 1005 nan))%float); reflexivity.
  - apply (proj1 (proj2 (Hreal 1005 (-30)))). lra.
Defined.

(** X2: at a fixed temperature of the validity range the saturation vapor
    pressure grows with the air pressure. *)
Theorem buck_vapor_pressure_increasing_in_pressure (p1 p2 t : R) :
  0 < p1 -> p1 < p2 -> -20 <= t <= 50 ->
  exists v1 v2,
    buck_vapor_pressure p1 t = inr v1
    /\ buck_vapor_pressure p2 t = inr v2
    /\ v1 < v2.
Proof.
  intros Hp1 Hlt Ht.
  exists (buck_formula p1 t), (buck_formula p2 t).
  split; [apply buck_vapor_pressure_valid; [lra | exact Ht] |].
  split; [apply buck_vapor_pressure_valid; [lra | exact Ht] |].
  unfold buck_formula.
  apply Rmult_lt_compat_r; [apply exp_pos | lra].
Qed.

Lemma buck_vapor_pressure_increasing_in_pressure_witness :
  (0 < 260 /\ 260 < 1260 /\ -20 <= 25 <= 50)
  /\ exists v1 v2,
       buck_vapor_pressure 260 25 = inr v1
       /\ buck_vapor_pressure 1260 25 = inr v2
       /\ v1 < v2.
Proof.
  split; [lra |].
  apply (buck_vapor_pressure_increasing_in_pressure 260 1260 25); lra.
Defined.

(** ** The corrections *)

(** X3: over the sensor range of 0 to 65 degrees the corrected
    temperature lies between -9.675 and 45.848 and is lower than the
    measured one by at least 9.675 and at most 19.152 degrees. *)
Theorem ambient_temperature_sensor_range (t : R) :
  0 <= t <= 65 ->
  -9.675 <= ambient_temperature t <= 45.848
  /\ t - 19.152 <= ambient_temperature t <= t - 9.675.
Proof. unfold ambient_temperature, a_fit, b_fit. intros H. lra. Qed.

Lemma ambient_temperature_sensor_range_witness :
  0 <= 65 <= 65
  /\ -9.675 <= ambient_temperature 65 <= 45.848
  /\ 65 - 19.152 <= ambient_temperature 65 <= 65 - 9.675.
Proof.
  split; [lra |]. apply (ambient_temperature_sensor_range 65). lra.
Defined.

(** What [ambient_humidity] does for all arguments: the inside call
    decides first, then the ambient call, and the division is only reached
    with a positive divisor. *)
Lemma ambient_humidity_outcome (h mt mp ta pa : R) :
  (exists e, buck_vapor_pressure mp mt = inl e
             /\ ambient_humidity h mt mp ta pa = inl e)
  \/ (mp > 0 /\ -20 <= mt <= 50
      /\ exists e, buck_vapor_pressure pa ta = inl e
                   /\ ambient_humidity h mt mp ta pa = inl e)
  \/ (mp > 0 /\ -20 <= mt <= 50 /\ pa > 0 /\ -20 <= ta <= 50
      /\ ambient_humidity h mt mp ta pa
         = inr (h * buck_formula mp mt / buck_formula pa ta)).
Proof.
  destruct (buck_vapor_pressure_outcome mp mt)
    as [[Hp E] | [[Hp [Ht E]] | [[Hp [Ht E]] | [Hp [Ht E]]]]];
    try (left; eexists; split; [exact E |];
         unfold ambient_humidity; rewrite E; reflexivity).
  right.
  destruct (buck_vapor_pressure_outcome pa ta)
    as [[Hq F] | [[Hq [Hu F]] | [[Hq [Hu F]] | [Hq [Hu F]]]]];
    try (left; split; [exact Hp |]; split; [exact Ht |];
         eexists; split; [exact F |];
         unfold ambient_humidity; rewrite E; cbn [bind]; rewrite F;
         reflexivity).
  right. repeat split; try assumption; try lra.
  apply ambient_humidity_valid; assumption.
Qed.

(** X4: [ambient_humidity] returns a value exactly when both pressures are
    positive and both temperatures lie between -20 and 50, and the value
    is then the measured humidity times the inside saturation vapor
    pressure, divided by the ambient one. *)
Theorem ambient_humidity_returns (h mt mp ta pa : R) :
  ((exists v, ambient_humidity h mt mp ta pa = inr v)
   <-> (mp > 0 /\ -20 <= mt <= 50) /\ (pa > 0 /\ -20 <= ta <= 50))
  /\ (forall v,
        ambient_humidity h mt mp ta pa = inr v ->
        v = h * buck_formula mp mt / buck_formula pa ta).
Proof.
  destruct (ambient_humidity_outcome h mt mp ta pa)
    as [[e [E H]] | [[Hp [Ht [e [F H]]]] | [Hp [Ht [Hq [Hu H]]]]]];
    rewrite H.
  - split.
    + split; [intros [v Hv]; discriminate Hv |].
      intros [[Hp Ht] _].
      rewrite (buck_vapor_pressure_valid mp mt Hp Ht) in E. discriminate E.
    + intros v Hv. discriminate Hv.
  - split.
    + split; [intros [v Hv]; discriminate Hv |].
      intros [_ [Hq Hu]].
      rewrite (buck_vapor_pressure_valid pa ta Hq Hu) in F. discriminate F.
    + intros v Hv. discriminate Hv.
  - split.
    + split; [intros _; repeat split; assumption || lra |].
      intros _. eexists. reflexivity.
    + intros v Hv. injection Hv as <-. reflexivity.
Qed.

(** X5: an exception out of [ambient_humidity] is one of the three input
    assertions of [buck_vapor_pressure], raised by the inside call or,
    when that one returns, by the ambient call; the function never raises
    [ZeroDivisionError] and never the output assertion. *)
Theorem ambient_humidity_exception (h mt mp ta pa : R) (e : exn) :
  ambient_humidity h mt mp ta pa = inl e ->
  (buck_vapor_pressure mp mt = inl e
   \/ ((exists x, buck_vapor_pressure mp mt = inr x)
       /\ buck_vapor_pressure pa ta = inl e))
  /\ (e = AssertionError BuckNegativePressure
      \/ e = AssertionError BuckTemperatureBelow
      \/ e = AssertionError BuckTemperatureAbove).
Proof.
  intros He.
  assert (Hkind : forall p t, buck_vapor_pressure p t = inl e ->
            e = AssertionError BuckNegativePressure
            \/ e = AssertionError BuckTemperatureBelow
            \/ e = AssertionError BuckTemperatureAbove).
  { intros p t Hb.
    destruct (buck_vapor_pressure_outcome p t)
      as [[_ E] | [[_ [_ E]] | [[_ [_ E]] | [_ [_ E]]]]];
      rewrite E in Hb; try discriminate Hb; injection Hb as <-; auto. }
  destruct (ambient_humidity_outcome h mt mp ta pa)
    as [[e' [E H]] | [[Hp [Ht [e' [F H]]]] | [_ [_ [_ [_ H]]]]]];
    rewrite H in He; try discriminate He; injection He as <-.
  - split; [left; exact E | exact (Hkind mp mt E)].
  - split; [| exact (Hkind pa ta F)].
    right. split; [| exact F].
    eexists. apply buck_vapor_pressure_valid; assumption.
Qed.

Lemma ambient_humidity_exception_witness :
  ambient_humidity 50 60 1000 (-30) 0
  = inl (AssertionError BuckTemperatureAbove)
  /\ buck_vapor_pressure 1000 60 = inl (AssertionError BuckTemperatureAbove).
Proof.
  assert (H : ambient_humidity 50 60 1000 (-30) 0
              = inl (AssertionError BuckTemperatureAbove))
    by (apply ambient_humidity_inside_above; lra).
  split; [exact H |].
  destruct (ambient_humidity_exception 50 60 1000 (-30) 0 _ H)
    as [[Hin | [[x Hx] _]] _].
  - exact Hin.
  - rewrite buck_vapor_pressure_above in Hx by lra. discriminate Hx.
Defined.

(** X6: [ambient_humidity] is homogeneous in the measured humidity: when
    it returns [v] for a humidity [h], it returns [k * v] for the humidity
    [k * h] under the same conditions. *)
Theorem ambient_humidity_scales (k h mt mp ta pa v : R) :
  ambient_humidity h mt mp ta pa = inr v ->
  ambient_humidity (k * h) mt mp ta pa = inr (k * v).
Proof.
  intros Hv.
  destruct (ambient_humidity_outcome h mt mp ta pa)
    as [[e [_ H]] | [[_ [_ [e [_ H]]]] | [Hp [Ht [Hq [Hu H]]]]]];
    rewrite H in Hv; try discriminate Hv.
  injection Hv as <-.
  rewrite (ambient_humidity_valid (k * h) mt mp ta pa Hp Hq Ht Hu).
  f_equal. pose proof (buck_formula_pos pa ta Hq). field. lra.
Qed.

Lemma ambient_humidity_scales_witness :
  ambient_humidity 45 32 1005 32 1005 = inr 45
  /\ ambient_humidity (2 * 45) 32 1005 32 1005 = inr (2 * 45).
Proof.
  assert (H : ambient_humidity 45 32 1005 32 1005 = inr 45).
  { rewrite ambient_humidity_valid by lra. f_equal.
    pose proof (buck_formula_pos 1005 32). field. lra. }
  split; [exact H |].
  apply (ambient_humidity_scales 2 45 32 1005 32 1005 45 H).
Defined.

(** X7: when the measured and the ambient pressure are the same, as in
    every cycle of the sensor, the corrected humidity does not depend on
    that pressure: it is the measured humidity times the quotient of the
    two exponentials. *)
Theorem ambient_humidity_pressure_free (h mt ta p : R) :
  p > 0 -> -20 <= mt <= 50 -> -20 <= ta <= 50 ->
  ambient_humidity h mt p ta p
  = inr (h * exp (17.502 * mt / (240.97 + mt))
           / exp (17.502 * ta / (240.97 + ta))).
Proof.
  intros Hp Hmt Hta.
  rewrite (ambient_humidity_valid h mt p ta p Hp Hp Hmt Hta).
  f_equal. unfold buck_formula.
  pose proof (exp_pos (17.502 * ta / (240.97 + ta))).
  field. split; lra.
Qed.

Lemma ambient_humidity_pressure_free_witness :
  (260 > 0 /\ -20 <= 32 <= 50 /\ -20 <= 17.6594 <= 50)
  /\ ambient_humidity 45 32 260 17.6594 260
     = inr (45 * exp (17.502 * 32 / (240.97 + 32))
               / exp (17.502 * 17.6594 / (240.97 + 17.6594))).
Proof.
  split; [lra |].
  apply (ambient_humidity_pressure_free 45 32 17.6594 260); lra.
Defined.

(** ** Not-a-number in binary64 *)

(** X8: in binary64 a not-a-number never gets past the input assertions
    of [buck_vapor_pressure], because every comparison with it is false:
    as air pressure it raises "negative input air pressure" whatever the
    temperature, as temperature it raises "temperature below validity
    range" when the pressure is positive; and [ambient_humidity] raises
    the same exceptions when it is given one as a pressure or a
    temperature of the inside call. *)
Theorem binary64_nan_is_refused (h p t ta pa : float) :
  Binary64.buck_vapor_pressure nan t
  = Some (inl (AssertionError BuckNegativePressure))
  /\ Binary64.buck_vapor_pressure p nan
     = Some (inl (AssertionError
                    (if (0 <? p)%float then BuckTemperatureBelow
                     else BuckNegativePressure)))
  /\ Binary64.ambient_humidity h t nan ta pa
     = Some (inl (AssertionError BuckNegativePressure))
  /\ Binary64.ambient_humidity h nan p ta pa
     = Some (inl (AssertionError
                    (if (0 <? p)%float then BuckTemperatureBelow
                     else BuckNegativePressure))).
Proof.
  assert (H1 : forall t', Binary64.buck_vapor_pressure nan t'
               = Some (inl (AssertionError BuckNegativePressure)))
    by (intros t'; reflexivity).
  assert (H2 : Binary64.buck_vapor_pressure p nan
               = Some (inl (AssertionError
                              (if (0 <? p)%float then BuckTemperatureBelow
                               else BuckNegativePressure)))).
  { unfold Binary64.buck_vapor_pressure.
    destruct (0 <? p)%float; reflexivity. }
  split; [apply H1 |]. split; [exact H2 |].
  unfold Binary64.ambient_humidity.
  rewrite H1, H2. split; reflexivity.
Qed.

(** ** The sensor object across calls *)

Ltac range_check c :=
  let H := fresh "H" in
  destruct c as [H | H]; cbn [assert ret raise]; [| reflexivity].

(** [update] assigns neither of the two attributes of [__init__]. *)
Lemma update_keeps_init_attributes (w : cycle) (s : Sensor.state) :
  Sensor.timestamp_fmt (fst (Sensor.update w s)) = Sensor.timestamp_fmt s
  /\ Sensor.measurement_interval (fst (Sensor.update w s))
     = Sensor.measurement_interval s.
Proof.
  destruct (in_sensor_range_dec w) as [Hin | Hout].
  - rewrite (update_in_range w s Hin).
    destruct (cycle_humidity w); split; reflexivity.
  - clear Hout.
    unfold Sensor.update, Sensor.mbind, Sensor.lift, Sensor.getattr, Sensor.gets.
    cbn -[assert].
    destruct (Rge_dec (get_humidity w) 0); cbn [assert ret raise];
      [| split; reflexivity].
    destruct (Rle_dec (get_humidity w) 100); cbn [assert ret raise];
      [| split; reflexivity].
    cbn -[assert].
    destruct (Rge_dec (get_temperature_from_humidity w) 0);
      cbn [assert ret raise]; [| split; reflexivity].
    destruct (Rle_dec (get_temperature_from_humidity w) 65);
      cbn [assert ret raise]; [| split; reflexivity].
    cbn -[assert].
    destruct (Rge_dec (get_pressure w) 260); cbn [assert ret raise];
      [| split; reflexivity].
    destruct (Rle_dec (get_pressure w) 1260); cbn [assert ret raise];
      [| split; reflexivity].
    unfold Sensor.compute_ambient_values, Sensor.mbind, Sensor.lift,
      Sensor.getattr.
    cbn. destruct (ambient_humidity _ _ _ _ _); split; reflexivity.
Qed.

(** X9: [compute_ambient_values] on an object that lacks a measured
    attribute raises [AttributeError] for the first one it reads and
    finds missing, in the order temperature, pressure, humidity; what it
    assigned before stays assigned: nothing when the temperature is
    missing, [ambient_temperature] when the pressure is missing, and
    [ambient_pressure] as well when only the humidity is missing. *)
Theorem compute_ambient_values_not_ready (s : Sensor.state) :
  (Sensor.measured_temperature s = None ->
   Sensor.compute_ambient_values s
   = (s, inl (AttributeError "measured_temperature")))
  /\ (forall t,
        Sensor.measured_temperature s = Some t ->
        Sensor.measured_pressure s = None ->
        snd (Sensor.compute_ambient_values s)
        = inl (AttributeError "measured_pressure")
        /\ record_attributes (fst (Sensor.compute_ambient_values s))
           = (Sensor.timestamp s, Sensor.ambient_humidity s,
              Some (ambient_temperature t), Sensor.ambient_pressure s))
  /\ (forall t p,
        Sensor.measured_temperature s = Some t ->
        Sensor.measured_pressure s = Some p ->
        Sensor.measured_humidity s = None ->
        snd (Sensor.compute_ambient_values s)
        = inl (AttributeError "measured_humidity")
        /\ record_attributes (fst (Sensor.compute_ambient_values s))
           = (Sensor.timestamp s, Sensor.ambient_humidity s,
              Some (ambient_temperature t), Some (ambient_pressure p))).
Proof.
  unfold Sensor.compute_ambient_values, Sensor.mbind, Sensor.getattr.
  split; [| split].
  - intros Ht. rewrite Ht. reflexivity.
  - intros t Ht Hp. rewrite Ht. cbn. rewrite Hp. split; reflexivity.
  - intros t p Ht Hp Hh. rewrite Ht. cbn. rewrite Hp. cbn. rewrite Hh.
    split; reflexivity.
Qed.

Lemma compute_ambient_values_not_ready_witness :
  Sensor.compute_ambient_values Sensor.init
  = (Sensor.init, inl (AttributeError "measured_temperature")).
Proof.
  apply (proj1 (compute_ambient_values_not_ready Sensor.init)). reflexivity.
Defined.

(** X10: after a successful [update], calling [compute_ambient_values]
    again succeeds and leaves the object exactly as it is. *)
Theorem compute_ambient_values_again (w : cycle) (s : Sensor.state) :
  snd (Sensor.update w s) = inr tt ->
  Sensor.compute_ambient_values (fst (Sensor.update w s))
  = (fst (Sensor.update w s), inr tt).
Proof.
  intros Hok.
  destruct (update_success w s Hok) as [_ [ah [Hah Hst]]].
  rewrite Hst. unfold cycle_humidity in Hah.
  unfold Sensor.compute_ambient_values, Sensor.mbind, Sensor.lift,
    Sensor.getattr.
  cbn. rewrite Hah. reflexivity.
Qed.

Lemma compute_ambient_values_again_witness :
  snd (Sensor.update mild Sensor.init) = inr tt
  /\ Sensor.compute_ambient_values (fst (Sensor.update mild Sensor.init))
     = (fst (Sensor.update mild Sensor.init), inr tt).
Proof.
  assert (Hok : snd (Sensor.update mild Sensor.init) = inr tt).
  { rewrite (update_valid mild Sensor.init mild_in_range)
      by (unfold mild; cbn; lra).
    reflexivity. }
  split; [exact Hok |].
  apply (compute_ambient_values_again mild Sensor.init Hok).
Defined.

(** X11: whether [update] succeeds, and with which exception it fails,
    depends on the readings only, not on what the object holds from
    earlier calls. *)
Theorem update_outcome_of_readings (w : cycle) (s s' : Sensor.state) :
  snd (Sensor.update w s) = snd (Sensor.update w s').
Proof.
  destruct (in_sensor_range_dec w) as [Hin | Hout].
  - rewrite (update_in_range w s Hin), (update_in_range w s' Hin).
    destruct (cycle_humidity w); reflexivity.
  - clear Hout.
    unfold Sensor.update, Sensor.mbind, Sensor.lift, Sensor.getattr, Sensor.gets.
    cbn -[assert].
    range_check (Rge_dec (get_humidity w) 0).
    range_check (Rle_dec (get_humidity w) 100).
    cbn -[assert].
    range_check (Rge_dec (get_temperature_from_humidity w) 0).
    range_check (Rle_dec (get_temperature_from_humidity w) 65).
    cbn -[assert].
    range_check (Rge_dec (get_pressure w) 260).
    range_check (Rle_dec (get_pressure w) 1260).
    unfold Sensor.compute_ambient_values, Sensor.mbind, Sensor.lift,
      Sensor.getattr.
    cbn. destruct (ambient_humidity _ _ _ _ _); reflexivity.
Qed.

(** X12: a successful [update] overwrites everything an earlier call left:
    the object it produces is the same whether or not another [update],
    successful or not, ran before it. *)
Theorem update_forgets_history (w w' : cycle) (s : Sensor.state) :
  snd (Sensor.update w s) = inr tt ->
  Sensor.update w (fst (Sensor.update w' s)) = Sensor.update w s.
Proof.
  intros Hok.
  destruct (update_success w s Hok) as [Hin [ah [Hah _]]].
  rewrite (update_in_range w s Hin), (update_in_range w _ Hin), Hah.
  destruct (update_keeps_init_attributes w' s) as [Hfmt Hint].
  unfold corrected. rewrite Hfmt, Hint. reflexivity.
Qed.

Lemma update_forgets_history_witness :
  snd (Sensor.update mild Sensor.init) = inr tt
  /\ Sensor.update mild (fst (Sensor.update hot Sensor.init))
     = Sensor.update mild Sensor.init.
Proof.
  assert (Hok : snd (Sensor.update mild Sensor.init) = inr tt).
  { rewrite (update_valid mild Sensor.init mild_in_range)
      by (unfold mild; cbn; lra).
    reflexivity. }
  split; [exact Hok |].
  apply (update_forgets_history mild hot Sensor.init Hok).
Defined.

(** X13: when an [update] fails inside the vapor-pressure computation on
    an object that holds a record from an earlier cycle, the record read
    afterwards is a mixture: the time stamp, temperature and pressure of
    the failed cycle with the humidity of the earlier one. *)
Theorem update_leaves_mixed_record
  (w : cycle) (s : Sensor.state) (ah : R) :
  in_sensor_range w -> 50 < get_temperature_from_humidity w ->
  Sensor.ambient_humidity s = Some ah ->
  failed (snd (Sensor.update w s))
  /\ snd (Main.corrected_record (fst (Sensor.update w s)))
     = inr (utcnow_strftime w (Sensor.timestamp_fmt s), ah,
            ambient_temperature (get_temperature_from_humidity w),
            get_pressure w).
Proof.
  intros Hin Ht Hah.
  rewrite (update_too_hot w s Hin Ht).
  split; [exact I |].
  unfold Main.corrected_record, Main.read_timestamp,
    Main.read_ambient_humidity, Main.read_ambient_temperature,
    Main.read_ambient_pressure, Sensor.mbind, Sensor.getattr.
  cbn. rewrite Hah. reflexivity.
Qed.

Lemma update_leaves_mixed_record_witness :
  (in_sensor_range hot /\ 50 < get_temperature_from_humidity hot)
  /\ exists ah,
       Sensor.ambient_humidity (fst (Sensor.update mild Sensor.init)) = Some ah
       /\ snd (Main.corrected_record
                 (fst (Sensor.update hot (fst (Sensor.update mild Sensor.init)))))
          = inr ("2016-05-01 12:00:30"%string, ah,
                 ambient_temperature 60, 1000).
Proof.
  assert (H60 : 50 < get_temperature_from_humidity hot)
    by (unfold hot; cbn; lra).
  split; [split; [exact hot_in_range | exact H60] |].
  rewrite (update_valid mild Sensor.init mild_in_range)
    by (unfold mild; cbn; lra).
  eexists. split; [reflexivity |].
  apply (update_leaves_mixed_record hot _ _ hot_in_range H60). reflexivity.
Defined.

(** X14: an [update] that stops at a range check leaves the record of the
    earlier cycle in place: reading it gives what it gave before the
    call. *)
Theorem update_rejected_keeps_old_record (w : cycle) (s : Sensor.state) :
  rejected (snd (Sensor.update w s)) ->
  snd (Main.corrected_record (fst (Sensor.update w s)))
  = snd (Main.corrected_record s).
Proof.
  intros Hrej.
  destruct (update_rejected_keeps_record w s Hrej) as [_ Hrec].
  unfold record_attributes in Hrec. injection Hrec as Hts Hah Hta Hpa.
  unfold Main.corrected_record, Main.read_timestamp,
    Main.read_ambient_humidity, Main.read_ambient_temperature,
    Main.read_ambient_pressure, Sensor.mbind, Sensor.getattr.
  rewrite Hts.
  destruct (Sensor.timestamp s); [| reflexivity].
  rewrite Hah.
  destruct (Sensor.ambient_humidity s); [| reflexivity].
  rewrite Hta.
  destruct (Sensor.ambient_temperature s); [| reflexivity].
  rewrite Hpa.
  destruct (Sensor.ambient_pressure s); reflexivity.
Qed.

Lemma update_rejected_keeps_old_record_witness :
  let low := {| get_humidity := 45;
                get_temperature_from_humidity := 32;
                get_pressure := 200;
                utcnow_strftime := fun _ => "2016-05-01 12:03:00"%string |} in
  rejected (snd (Sensor.update low (fst (Sensor.update mild Sensor.init))))
  /\ snd (Main.corrected_record
            (fst (Sensor.update low (fst (Sensor.update mild Sensor.init)))))
     = snd (Main.corrected_record (fst (Sensor.update mild Sensor.init))).
Proof.
  intros low.
  assert (Hrej : rejected (snd (Sensor.update low
                                  (fst (Sensor.update mild Sensor.init))))).
  { assert (Hlow : ~ in_sensor_range low)
      by (unfold in_sensor_range, low; cbn; lra).
    destruct (update_out_of_range low (fst (Sensor.update mild Sensor.init))
                Hlow) as [a [Ha [Hs _]]].
    rewrite Ha. cbn. apply sensor_assertion_kind. exact Hs. }
  split; [exact Hrej |].
  apply (update_rejected_keeps_old_record low _ Hrej).
Defined.

(** X15: the record of a successful cycle is bounded: the measured
    temperature was at most 50, the corrected temperature lies between
    -9.675 and 33.035, the pressure between 260 and 1260, and the
    corrected humidity is at least the measured one, more than it when
    the measured one is positive.  The corrected humidity is not capped
    at 100. *)
Theorem update_record_bounds (w : cycle) (s : Sensor.state) :
  snd (Sensor.update w s) = inr tt ->
  get_temperature_from_humidity w <= 50
  /\ exists ts ah ta pa,
       snd (Main.corrected_record (fst (Sensor.update w s)))
       = inr (ts, ah, ta, pa)
       /\ -9.675 <= ta <= 33.035
       /\ 260 <= pa <= 1260
       /\ 0 <= get_humidity w <= ah
       /\ (0 < get_humidity w -> get_humidity w < ah).
Proof.
  intros Hok.
  destruct (update_success w s Hok) as [Hin [ah [Hah Hst]]].
  pose proof Hin as [[Hh0 Hh1] [[Ht0 Ht1] [Hp0 Hp1]]].
  assert (Ht50 : get_temperature_from_humidity w <= 50).
  { destruct (Rle_dec (get_temperature_from_humidity w) 50) as [H | H];
      [exact H |].
    rewrite (update_too_hot w s Hin) in Hok by lra. discriminate Hok. }
  split; [exact Ht50 |].
  rewrite (update_valid w s Hin Ht50).
  set (t := get_temperature_from_humidity w) in *.
  set (p := get_pressure w) in *.
  set (h := get_humidity w) in *.
  exists (utcnow_strftime w (Sensor.timestamp_fmt s)),
    (h * buck_formula p t / buck_formula (ambient_pressure p)
                              (ambient_temperature t)),
    (ambient_temperature t), (ambient_pressure p).
  split; [reflexivity |].
  assert (Hta : -9.675 <= ambient_temperature t <= 33.035)
    by (unfold ambient_temperature, a_fit, b_fit; lra).
  split; [exact Hta |].
  unfold ambient_pressure. split; [lra |].
  assert (Hlow : buck_formula p (ambient_temperature t) > 0)
    by (apply buck_formula_pos; lra).
  assert (Hinc : buck_formula p (ambient_temperature t) < buck_formula p t).
  { apply buck_formula_increasing; [lra | lra |].
    unfold ambient_temperature, a_fit, b_fit. lra. }
  assert (Hq : forall x, 0 <= x ->
            x <= x * buck_formula p t / buck_formula p (ambient_temperature t)).
  { intros x Hx.
    apply Rmult_le_reg_r with (r := buck_formula p (ambient_temperature t));
      [lra |].
    replace (x * buck_formula p t / buck_formula p (ambient_temperature t)
             * buck_formula p (ambient_temperature t))
      with (x * buck_formula p t) by (field; lra).
    apply Rmult_le_compat_l; lra. }
  split; [split; [exact Hh0 | apply Hq; exact Hh0] |].
  intros Hpos.
  apply Rmult_lt_reg_r with (r := buck_formula p (ambient_temperature t));
    [lra |].
  replace (h * buck_formula p t / buck_formula p (ambient_temperature t)
           * buck_formula p (ambient_temperature t))
    with (h * buck_formula p t) by (field; lra).
  apply Rmult_lt_compat_l; lra.
Qed.

Lemma update_record_bounds_witness :
  let full := {| get_humidity := 100;
                 get_temperature_from_humidity := 32;
                 get_pressure := 1005;
                 utcnow_strftime := fun _ => "2016-05-01 12:02:00"%string |} in
  snd (Sensor.update full Sensor.init) = inr tt
  /\ exists ts ah ta pa,
       snd (Main.corrected_record (fst (Sensor.update full Sensor.init)))
       = inr (ts, ah, ta, pa)
       /\ 100 < ah.
Proof.
  intros full.
  assert (Hin : in_sensor_range full)
    by (unfold in_sensor_range, full; cbn; lra).
  assert (Hok : snd (Sensor.update full Sensor.init) = inr tt).
  { rewrite (update_valid full Sensor.init Hin) by (unfold full; cbn; lra).
    reflexivity. }
  split; [exact Hok |].
  destruct (update_record_bounds full Sensor.init Hok)
    as [_ [ts [ah [ta [pa [Hrec [_ [_ [_ Hgt]]]]]]]]].
  exists ts, ah, ta, pa. split; [exact Hrec |].
  apply Hgt. unfold full; cbn. lra.
Defined.

Lemma run_keeps_init_attributes (ws : list cycle) :
  forall s : Sensor.state,
    Sensor.timestamp_fmt (fst (run s ws)) = Sensor.timestamp_fmt s
    /\ Sensor.measurement_interval (fst (run s ws))
       = Sensor.measurement_interval s.
Proof.
  induction ws as [| w ws IH]; intros s; [split; reflexivity |].
  cbn [run].
  pose proof (update_keeps_init_attributes w s) as [Hfmt Hint].
  destruct (Sensor.update w s) as [s1 r].
  specialize (IH s1).
  destruct (run s1 ws) as [s2 rs].
  cbn [fst] in *. destruct IH as [IHfmt IHint].
  split; congruence.
Qed.

(** X16: whatever calls of [update] came before, successful or not,
    [wait] asks for a sleep of 30 seconds and changes nothing in the
    object, and the format of the time stamps is still the one that
    [__init__] assigned. *)
Theorem wait_sleeps_thirty_seconds (ws : list cycle) :
  Sensor.wait (fst (run Sensor.init ws)) = (fst (run Sensor.init ws), inr 30)
  /\ Sensor.timestamp_fmt (fst (run Sensor.init ws))
     = "%Y-%m-%d %H:%M:%S"%string.
Proof.
  destruct (run_keeps_init_attributes ws Sensor.init) as [Hfmt Hint].
  unfold Sensor.wait, Sensor.gets. rewrite Hint, Hfmt.
  split; reflexivity.
Qed.

(** ** The database *)

Lemma store_set_same (d : store) (path : string) (rows : list row) :
  store_set d path rows path = Some rows.
Proof. unfold store_set. rewrite String.eqb_refl. reflexivity. Qed.

Lemma store_set_other (d : store) (path q : string) (rows : list row) :
  q <> path -> store_set d path rows q = d q.
Proof.
  intros Hq. unfold store_set.
  destruct (String.eqb_spec q path) as [E | _]; [contradiction | reflexivity].
Qed.

(** The constructor leaves the table in place with the rows it had, or
    creates it empty, and touches no other path. *)
Lemma climatedb_init_table (path : string) (d : store) :
  fst (ClimateDB.init (Some path) d) path = Some (rows_at d path)
  /\ (forall q, q <> path -> fst (ClimateDB.init (Some path) d) q = d q).
Proof.
  unfold ClimateDB.init, ClimateDB.mbind, ClimateDB.mret,
    ClimateDB.create_table_if_not_exists, rows_at.
  destruct (d path) as [rows |] eqn:E; cbn [fst snd].
  - rewrite E. split; [reflexivity |]. intros q _. reflexivity.
  - rewrite store_set_same. split; [reflexivity |].
    intros q Hq. apply store_set_other. exact Hq.
Qed.

(** X17: [ClimateDB()] without a path raises the assertion "need path to
    database file" and touches no file.  With a path the constructor
    adds no row to any table and removes none, and the object it returns
    holds that path. *)
Theorem climatedb_init_keeps_rows (path q : string) (d : store) :
  ClimateDB.init None d
  = (d, inl (ClimateDB.AssertionError ClimateDB.NeedPath))
  /\ rows_at (fst (ClimateDB.init (Some path) d)) q = rows_at d q
  /\ (forall db,
        snd (ClimateDB.init (Some path) d) = inr db ->
        ClimateDB.dbfile db = path).
Proof.
  split; [reflexivity |].
  unfold ClimateDB.init, ClimateDB.mbind, ClimateDB.mret,
    ClimateDB.create_table_if_not_exists, rows_at.
  destruct (d path) as [rows |] eqn:E; cbn [fst snd].
  - split; [reflexivity |]. intros db H. injection H as <-. reflexivity.
  - split.
    + destruct (String.eqb_spec q path) as [-> | Hq].
      * rewrite store_set_same, E. reflexivity.
      * rewrite (store_set_other d path q [] Hq). reflexivity.
    + intros db H. injection H as <-. reflexivity.
Qed.

(** X18: constructing [ClimateDB] a second time on the same path changes
    nothing: the files are those the first construction left, rows
    included. *)
Theorem climatedb_init_twice (path : string) (d : store) :
  ClimateDB.init (Some path) (fst (ClimateDB.init (Some path) d))
  = ClimateDB.init (Some path) d.
Proof.
  unfold ClimateDB.init, ClimateDB.mbind, ClimateDB.mret,
    ClimateDB.create_table_if_not_exists.
  destruct (d path) as [rows |] eqn:E; cbn [fst snd].
  - rewrite E. reflexivity.
  - rewrite store_set_same. reflexivity.
Qed.



(** X20: [write] raises an assertion exactly when an argument has the
    wrong type, the time stamp being checked first, then humidity,
    temperature and pressure; an [int], a [unicode] or [None] is a wrong
    type; the files are unchanged. *)
Theorem climatedb_write_type_error
  (self : ClimateDB.state) (ts h t p : value) (d : store) :
  (ClimateDB.is_string ts && ClimateDB.is_float h
   && ClimateDB.is_float t && ClimateDB.is_float p = false
   -> ClimateDB.write self ts h t p d
      = (d, inl (ClimateDB.AssertionError
                   (if negb (ClimateDB.is_string ts)
                    then ClimateDB.TimestampNotString
                    else if negb (ClimateDB.is_float h)
                    then ClimateDB.HumidityNotNumber
                    else if negb (ClimateDB.is_float t)
                    then ClimateDB.TemperatureNotNumber
                    else ClimateDB.PressureNotNumber))))
  /\ (ClimateDB.is_string ts && ClimateDB.is_float h
      && ClimateDB.is_float t && ClimateDB.is_float p = true
      -> forall a,
           snd (ClimateDB.write self ts h t p d)
           <> inl (ClimateDB.AssertionError a)).
Proof.
  unfold ClimateDB.write, ClimateDB.mbind, ClimateDB.assert_string,
    ClimateDB.assert_float, ClimateDB.mret, ClimateDB.raise, ClimateDB.insert.
  split.
  - intros Hbad.
    destruct ts; cbn in *; try reflexivity;
      destruct h; cbn in *; try reflexivity;
      destruct t; cbn in *; try reflexivity;
      destruct p; cbn in *; try reflexivity; discriminate Hbad.
  - intros Hgood a.
    destruct ts; cbn in Hgood; try discriminate Hgood;
      destruct h; cbn in Hgood; try discriminate Hgood;
      destruct t; cbn in Hgood; try discriminate Hgood;
      destruct p; cbn in Hgood; try discriminate Hgood.
    cbn. destruct (d (ClimateDB.dbfile self)); cbn; discriminate.
Qed.

Lemma climatedb_write_type_error_witness :
  let db := {| ClimateDB.dbfile := roomclimate |} in
  let d : store := fun _ => None in
  ClimateDB.write db (Str "2016-05-01 12:00:00") (Float 45) (Float 17)
    (Int 1005) d
  = (d, inl (ClimateDB.AssertionError ClimateDB.PressureNotNumber)).
Proof.
  intros db d.
  apply (proj1 (climatedb_write_type_error db (Str "2016-05-01 12:00:00")
                  (Float 45) (Float 17) (Int 1005) d)).
  reflexivity.
Defined.

(** ** The main loop *)

Lemma completes_dec (w : cycle) : {completes w} + {~ completes w}.
Proof.
  unfold completes.
  destruct (in_sensor_range_dec w) as [Hin | Hout]; [| right; tauto].
  destruct (Rle_dec (get_temperature_from_humidity w) 50) as [Ht | Ht];
    [left; tauto | right; tauto].
Qed.


(** One turn of the loop on readings that complete: the row is appended
    and the program sleeps. *)
Lemma iteration_completes
  (db : ClimateDB.state) (w : cycle) (m : machine) (rows : list row) :
  completes w ->
  Sensor.timestamp_fmt (sensor m) = Sensor.timestamp_fmt Sensor.init ->
  disk m (ClimateDB.dbfile db) = Some rows ->
  iteration db w m
  = ({| sensor := corrected w (sensor m) (Humidity (row_of w));
        disk := store_set (disk m) (ClimateDB.dbfile db) (rows ++ [row_of w]);
        slept := slept m + Sensor.measurement_interval (sensor m) |},
     None).
Proof.
  intros [Hin Ht] Hfmt Hrows. unfold iteration.
  rewrite (update_valid w (sensor m) Hin Ht).
  unfold Main.corrected_record, Main.read_timestamp,
    Main.read_ambient_humidity, Main.read_ambient_temperature,
    Main.read_ambient_pressure, Sensor.mbind, Sensor.getattr, Sensor.mret.
  cbn.
  unfold ClimateDB.write, ClimateDB.mbind, ClimateDB.assert_string,
    ClimateDB.assert_float, ClimateDB.mret, ClimateDB.insert.
  rewrite Hrows. cbn. unfold row_of. rewrite Hfmt. reflexivity.
Qed.


(** The loop over readings that all complete, followed by any others. *)
Lemma loop_completes (db : ClimateDB.state) (pre : list cycle) :
  forall (rest : list cycle) (m : machine) (rows : list row),
    Forall completes pre ->
    Sensor.timestamp_fmt (sensor m) = Sensor.timestamp_fmt Sensor.init ->
    Sensor.measurement_interval (sensor m) = 30 ->
    disk m (ClimateDB.dbfile db) = Some rows ->
    exists m',
      loop db (pre ++ rest) m = loop db rest m'
      /\ Sensor.timestamp_fmt (sensor m') = Sensor.timestamp_fmt Sensor.init
      /\ Sensor.measurement_interval (sensor m') = 30
      /\ disk m' (ClimateDB.dbfile db) = Some (rows ++ map row_of pre)
      /\ (forall q, q <> ClimateDB.dbfile db -> disk m' q = disk m q)
      /\ slept m' = slept m + 30 * INR (length pre).
Proof.
  induction pre as [| w pre IH]; intros rest m rows Hall Hfmt Hint Hrows.
  - exists m. cbn [app map length INR]. rewrite app_nil_r.
    repeat split; try assumption. lra.
  - inversion Hall as [| ? ? Hw Hpre]; subst.
    cbn [app loop].
    rewrite (iteration_completes db w m rows Hw Hfmt Hrows).
    destruct (IH rest
                {| sensor := corrected w (sensor m) (Humidity (row_of w));
                   disk := store_set (disk m) (ClimateDB.dbfile db)
                             (rows ++ [row_of w]);
                   slept := slept m + Sensor.measurement_interval (sensor m) |}
                (rows ++ [row_of w]) Hpre)
      as [m' [Hloop [Hfmt' [Hint' [Hrows' [Hother Hslept]]]]]].
    + cbn. exact Hfmt.
    + cbn. exact Hint.
    + cbn. apply store_set_same.
    + exists m'. split; [exact Hloop |].
      split; [exact Hfmt' |]. split; [exact Hint' |].
      split; [rewrite Hrows', <- app_assoc; reflexivity |].
      split.
      * intros q Hq. rewrite (Hother q Hq). cbn.
        apply store_set_other. exact Hq.
      * rewrite Hslept. cbn [slept]. rewrite Hint.
        change (length (w :: pre)) with (S (length pre)).
        rewrite S_INR. lra.
Qed.

(** A list of readings either completes throughout or has a first cycle
    that does not. *)
Lemma first_incomplete (ws : list cycle) :
  Forall completes ws
  \/ exists pre w post,
       ws = pre ++ w :: post /\ Forall completes pre /\ ~ completes w.
Proof.
  induction ws as [| w ws IH]; [left; constructor |].
  destruct (completes_dec w) as [Hw | Hw].
  - destruct IH as [Hall | [pre [w' [post [E [Hpre Hw']]]]]].
    + left. constructor; assumption.
    + right. exists (w :: pre), w', post.
      split; [rewrite E; reflexivity |].
      split; [constructor; assumption | exact Hw'].
  - right. exists [], w, ws. split; [reflexivity |].
    split; [constructor | exact Hw].
Qed.

(** The machine on which [main] starts its loop. *)
Lemma main_start (ws : list cycle) (d : store) :
  main ws d
  = loop {| ClimateDB.dbfile := roomclimate |} ws
      {| sensor := Sensor.init;
         disk := fst (ClimateDB.init (Some roomclimate) d);
         slept := 0 |}.
Proof.
  unfold main, ClimateDB.init, ClimateDB.mbind, ClimateDB.mret,
    ClimateDB.create_table_if_not_exists.
  destruct (d roomclimate); reflexivity.
Qed.

(** What [main] has done when the first [pre] cycles complete. *)
Lemma main_prefix (pre rest : list cycle) (d : store) :
  Forall completes pre ->
  exists m',
    main (pre ++ rest) d
    = loop {| ClimateDB.dbfile := roomclimate |} rest m'
    /\ disk m' roomclimate = Some (rows_at d roomclimate ++ map row_of pre)
    /\ (forall q, q <> roomclimate -> disk m' q = d q)
    /\ slept m' = 30 * INR (length pre).
Proof.
  intros Hpre. rewrite main_start.
  destruct (climatedb_init_table roomclimate d) as [Htable Hother].
  destruct (loop_completes {| ClimateDB.dbfile := roomclimate |} pre rest
              {| sensor := Sensor.init;
                 disk := fst (ClimateDB.init (Some roomclimate) d);
                 slept := 0 |}
              (rows_at d roomclimate) Hpre eq_refl eq_refl Htable)
    as [m' [Hloop [_ [_ [Hrows [Hq Hslept]]]]]].
  exists m'. split; [exact Hloop |]. split; [exact Hrows |].
  split.
  - intros q Hne. rewrite (Hq q Hne). cbn. apply Hother. exact Hne.
  - rewrite Hslept. cbn. lra.
Qed.


(** The exception of [update] on readings that do not complete: one of
    its six range assertions, or the upper temperature assertion of
    [buck_vapor_pressure], whatever the object holds. *)
Lemma update_incomplete_kind (w : cycle) :
  ~ completes w ->
  exists a,
    (sensor_assertion a = true \/ a = BuckTemperatureAbove)
    /\ forall s, snd (Sensor.update w s) = inl (AssertionError a).
Proof.
  intros Hno.
  destruct (in_sensor_range_dec w) as [Hin | Hout].
  - exists BuckTemperatureAbove. split; [right; reflexivity |].
    intros s. rewrite (update_too_hot w s Hin); [reflexivity |].
    unfold completes in Hno.
    destruct (Rle_dec (get_temperature_from_humidity w) 50); [tauto | lra].
  - destruct (update_out_of_range w Sensor.init Hout) as [a [Ha [Hs _]]].
    exists a. split; [left; exact Hs |].
    intros s.
    assert (E : snd (Sensor.update w s) = snd (Sensor.update w Sensor.init)).
    { clear.
      unfold Sensor.update, Sensor.mbind, Sensor.lift, Sensor.getattr,
        Sensor.gets.
      cbn -[assert].
      range_check (Rge_dec (get_humidity w) 0).
      range_check (Rle_dec (get_humidity w) 100).
      cbn -[assert].
      range_check (Rge_dec (get_temperature_from_humidity w) 0).
      range_check (Rle_dec (get_temperature_from_humidity w) 65).
      cbn -[assert].
      range_check (Rge_dec (get_pressure w) 260).
      range_check (Rle_dec (get_pressure w) 1260).
      unfold Sensor.compute_ambient_values, Sensor.mbind, Sensor.lift,
        Sensor.getattr.
      cbn. destruct (ambient_humidity _ _ _ _ _); reflexivity. }
    rewrite E. exact Ha.
Qed.

(** What the program has done for any list of cycles: it has gone through
    the cycles that complete up to the first that does not, and ends
    there with the exception of [update] if there is one. *)
Lemma main_run (ws : list cycle) (d : store) :
  exists pre post,
    ws = pre ++ post
    /\ Forall completes pre
    /\ disk (fst (main ws d)) roomclimate
       = Some (rows_at d roomclimate ++ map row_of pre)
    /\ slept (fst (main ws d)) = 30 * INR (length pre)
    /\ ((post = [] /\ snd (main ws d) = None)
        \/ exists w post' a,
             post = w :: post'
             /\ ~ completes w
             /\ (sensor_assertion a = true \/ a = BuckTemperatureAbove)
             /\ (forall s, snd (Sensor.update w s) = inl (AssertionError a))
             /\ snd (main ws d) = Some (SensorError (AssertionError a))).
Proof.
  destruct (first_incomplete ws)
    as [Hall | [pre [w [post [-> [Hpre Hw]]]]]].
  - exists ws, []. rewrite app_nil_r.
    destruct (main_prefix ws [] d Hall) as [m' [Hmain [Hrows [_ Hslept]]]].
    rewrite app_nil_r in Hmain. rewrite Hmain. cbn [loop fst snd].
    split; [reflexivity |]. split; [exact Hall |].
    split; [exact Hrows |]. split; [exact Hslept |].
    left. split; reflexivity.
  - exists pre, (w :: post).
    destruct (main_prefix pre (w :: post) d Hpre)
      as [m' [Hmain [Hrows [_ Hslept]]]].
    rewrite Hmain. cbn [loop].
    destruct (update_incomplete_kind w Hw) as [a [Hkind Hupd]].
    unfold iteration. specialize (Hupd (sensor m')) as Hm.
    destruct (Sensor.update w (sensor m')) as [s1 r]. cbn [snd] in Hm.
    subst r. cbn [fst snd disk slept].
    split; [reflexivity |]. split; [exact Hpre |].
    split; [exact Hrows |]. split; [exact Hslept |].
    right. exists w, post, a. repeat split; assumption.
Qed.





(** X23: an exception of the sensor object that ends the program is one
    of the six range assertions of [update] or "temperature above validity
    range" of [buck_vapor_pressure].  The program never ends with a type
    assertion of [ClimateDB.write], with [AttributeError], with
    [ZeroDivisionError], nor with one of the other assertions of
    [buck_vapor_pressure], whatever floats the sensor returns. *)
Theorem main_sensor_exceptions (ws : list cycle) (d : store) :
  (forall e,
     snd (main ws d) = Some (SensorError e) ->
     exists a,
       e = AssertionError a
       /\ (sensor_assertion a = true \/ a = BuckTemperatureAbove))
  /\ (forall a,
        snd (main ws d)
        <> Some (DatabaseError (ClimateDB.AssertionError a))).
Proof.
  destruct (main_run ws d)
    as [pre [post [_ [_ [_ [_
         [[_ Hnone] | [w [post' [a [_ [_ [Hkind [_ Hsome]]]]]]]]]]]]]].
  - rewrite Hnone. split; [intros e H; discriminate H |].
    intros a H; discriminate H.
  - rewrite Hsome. split.
    + intros e H. injection H as <-. exists a. split; [reflexivity | exact Hkind].
    + intros a' H. discriminate H.
Qed.

Lemma main_sensor_exceptions_witness :
  snd (main [mild; hot; mild] (fun _ => None))
  = Some (SensorError (AssertionError BuckTemperatureAbove))
  /\ exists a,
       AssertionError BuckTemperatureAbove = AssertionError a
       /\ (sensor_assertion a = true \/ a = BuckTemperatureAbove).
Proof.
  assert (Hm : Forall completes [mild]).
  { constructor; [| constructor].
    split; [exact mild_in_range |]. unfold mild; cbn. lra. }
  assert (Hend : snd (main [mild; hot; mild] (fun _ => None))
                 = Some (SensorError (AssertionError BuckTemperatureAbove))).
  { destruct (main_prefix [mild] [hot; mild] (fun _ => None) Hm)
      as [m' [Hmain _]].
    cbn [app] in Hmain. rewrite Hmain. cbn [loop]. unfold iteration.
    rewrite (update_too_hot hot (sensor m') hot_in_range)
      by (unfold hot; cbn; lra).
    reflexivity. }
  split; [exact Hend |].
  apply (proj1 (main_sensor_exceptions [mild; hot; mild] (fun _ => None))
           _ Hend).
Defined.

